(** * chatbot.py: a LangChain chatbot over a hosted model, in Rocq

    A shallow embedding of [src/chatbot.py]: the configuration object, the
    [AnthropicChatbot] wrapper with its prompt template and [get_response],
    the Streamlit page [main], the terminal loop [CLIChatbot.run] and the
    start-up block of the module, followed by the properties of the
    conversation transcript that the specification states.

    Conventions.
    - A Python [str] is a [string]; one [ascii] stands for one code point
      below 256, on which [str.strip] and [str.lower] are written out
      exactly.  Text outside that range occurs only in fixed banner and
      title literals, which are never inspected.
    - A Python [float] is a binary64 [float], an [int] is a [Z].
    - [os.environ] is a finite map from names to values.
    - A call that may raise returns a [Result]; the remote model is an
      oracle that maps a request to a reply or to an exception. *)

From Stdlib Require Import ZArith Floats Ascii.
From stdpp Require Import base option list strings gmap.

Open Scope string_scope.
Open Scope list_scope.

(** ** Python values *)

Module Py.

(** The exception classes the program meets.  [BaseOnly] stands for the
    classes outside [Exception] ([KeyboardInterrupt], [SystemExit],
    Streamlit's script-control exceptions): [except Exception] lets them
    pass. *)
Inductive exn_class :=
| ValueError | ImportError | EOFError | KeyError | OtherException | BaseOnly.

Record exn := Exn { exn_cls : exn_class; exn_msg : string }.

(** [isinstance(e, Exception)] *)
Definition is_Exception (e : exn) : bool :=
  match exn_cls e with BaseOnly => false | _ => true end.

(** [isinstance(e, ImportError)] *)
Definition is_ImportError (e : exn) : bool :=
  match exn_cls e with ImportError => true | _ => false end.

(** [str(e)] *)
Definition str (e : exn) : string := exn_msg e.

Inductive Result (A : Type) :=
| Ok (a : A)
| Raise (e : exn).
Arguments Ok {A} a.
Arguments Raise {A} e.

Definition bind {A B} (r : Result A) (k : A → Result B) : Result B :=
  match r with Ok a => k a | Raise e => Raise e end.

(** Truth value of a [str] and of an [Optional[str]]. *)
Definition truthy (s : string) : bool :=
  match s with EmptyString => false | String _ _ => true end.

Definition truthy_opt (o : option string) : bool :=
  match o with None => false | Some s => truthy s end.

(** [c.isspace()] for a code point below 256. *)
Definition isspace (c : ascii) : bool :=
  let n := N_of_ascii c in
  ((9 <=? n) && (n <=? 13) || (28 <=? n) && (n <=? 32)
   || (n =? 133) || (n =? 160))%N.

(** [c.lower()] for a code point below 256: A-Z and the upper-case
    letters of Latin-1 (U+00C0..U+00DE without the multiplication sign). *)
Definition lower_char (c : ascii) : ascii :=
  let n := N_of_ascii c in
  if ((65 <=? n) && (n <=? 90)
      || (192 <=? n) && (n <=? 222) && negb (n =? 215))%N
  then ascii_of_N (n + 32) else c.

Fixpoint lower (s : string) : string :=
  match s with
  | EmptyString => EmptyString
  | String c s' => String (lower_char c) (lower s')
  end.

Fixpoint lstrip (s : string) : string :=
  match s with
  | EmptyString => EmptyString
  | String c s' => if isspace c then lstrip s' else s
  end.

Fixpoint rstrip (s : string) : string :=
  match s with
  | EmptyString => EmptyString
  | String c s' =>
      match rstrip s' with
      | EmptyString => if isspace c then EmptyString else String c EmptyString
      | r => String c r
      end
  end.

(** [s.strip()] *)
Definition strip (s : string) : string := rstrip (lstrip s).

(** [s] is empty or holds white space only. *)
Fixpoint blank (s : string) : bool :=
  match s with
  | EmptyString => true
  | String c s' => isspace c && blank s'
  end.

(** The line feed, which string literals cannot hold. *)
Definition nl : string := String (ascii_of_nat 10) EmptyString.

End Py.
Export Py.

(** ** The process environment *)

Abbreviation Environ := (gmap string string).

(** [os.getenv(name)] *)
Definition getenv (env : Environ) (name : string) : option string := env !! name.

(** ** Conversation data *)

(** One entry of a chat history, the dict [{"role": r, "content": c}]. *)
Record Turn := mkTurn { role : string; content : string }.

Definition user_turn (c : string) : Turn := {| role := "user"; content := c |}.
Definition assistant_turn (c : string) : Turn := {| role := "assistant"; content := c |}.

(** ** The chat-model library (external)

    What the program uses of [langchain_core] and [langchain_anthropic]:
    message objects, a prompt template made of three kinds of parts, the model
    object, and the pipe [prompt | llm | StrOutputParser()]. *)

Module LangChain.

Inductive Message :=
| SystemMessage (content : string)
| HumanMessage (content : string)
| AIMessage (content : string).

(** The speaker of a message, in the vocabulary of the chat history. *)
Definition message_role (m : Message) : string :=
  match m with
  | SystemMessage _ => "system"
  | HumanMessage _ => "user"
  | AIMessage _ => "assistant"
  end.

Definition message_content (m : Message) : string :=
  match m with
  | SystemMessage c | HumanMessage c | AIMessage c => c
  end.

(** A part of [ChatPromptTemplate.from_messages([...])]: a message object
    taken as it is, [MessagesPlaceholder(variable_name=v)], or the pair
    [("human", "{v}")]. *)
Inductive PromptPart :=
| Literal (m : Message)
| MessagesPlaceholder (variable_name : string)
| HumanVariable (variable_name : string).

Definition ChatPromptTemplate := list PromptPart.

(** The dict given to [invoke]: [{"input": .., "chat_history": ..}]. *)
Record PromptInput := { var_input : string; var_chat_history : list Message }.

Definition format_part (vars : PromptInput) (p : PromptPart) : Result (list Message) :=
  match p with
  | Literal m => Ok [m]
  | MessagesPlaceholder v =>
      if String.eqb v "chat_history" then Ok (var_chat_history vars)
      else Raise (Exn KeyError v)
  | HumanVariable v =>
      if String.eqb v "input" then Ok [HumanMessage (var_input vars)]
      else Raise (Exn KeyError v)
  end.

(** [prompt.invoke(vars)]: the parts in order, each one expanded. *)
Fixpoint format_messages (prompt : ChatPromptTemplate) (vars : PromptInput)
  : Result (list Message) :=
  match prompt with
  | [] => Ok []
  | p :: rest =>
      bind (format_part vars p) (λ ms,
      bind (format_messages rest vars) (λ ms', Ok (ms ++ ms')))
  end.

(** [ChatAnthropic(model=.., temperature=.., max_tokens=..,
    anthropic_api_key=..)]: the constructor stores its arguments. *)
Record ChatAnthropic := {
  model : string;
  temperature : float;
  max_tokens : Z;
  anthropic_api_key : string
}.

(** What reaches the remote service on one call. *)
Record Request := { req_llm : ChatAnthropic; req_messages : list Message }.

(** The remote model: a reply text, or the exception the call raises. *)
Definition Invoker := Request → Result string.

(** [prompt | llm | StrOutputParser()] *)
Record Chain := { chain_prompt : ChatPromptTemplate; chain_llm : ChatAnthropic }.

(** The request [chain.invoke(vars)] sends, if the template can be filled. *)
Definition chain_request (c : Chain) (vars : PromptInput) : Result Request :=
  bind (format_messages (chain_prompt c) vars) (λ ms,
  Ok {| req_llm := chain_llm c; req_messages := ms |}).

End LangChain.
Export LangChain.

(** ** The world outside the program

    [environ] is [os.environ], [stdout] the lines printed so far, [calls] the
    requests sent to the remote model so far, oldest first. *)
Record World := {
  environ : Environ;
  stdout : list string;
  calls : list Request
}.

Definition print (s : string) (w : World) : World :=
  {| environ := environ w; stdout := stdout w ++ [s]; calls := calls w |}.

Definition setenv (name value : string) (w : World) : World :=
  {| environ := <[name := value]> (environ w); stdout := stdout w; calls := calls w |}.

Definition record_call (r : Request) (w : World) : World :=
  {| environ := environ w; stdout := stdout w; calls := calls w ++ [r] |}.

(** [chain.invoke(vars)]: fill the template, send the request, hand back the
    text.  The request is logged whether the remote call succeeds or fails. *)
Definition chain_invoke (invoke : Invoker) (c : Chain) (vars : PromptInput) (w : World)
  : Result string * World :=
  match chain_request c vars with
  | Raise e => (Raise e, w)
  | Ok r => (invoke r, record_call r w)
  end.

(** ** Configuration *)

Record ChatbotConfig := {
  model_name : string;
  cfg_temperature : float;
  cfg_max_tokens : Z;
  system_prompt : string
}.

(** [ChatbotConfig()]; the temperature is the double nearest to 0.7. *)
Definition ChatbotConfig_init : ChatbotConfig := {|
  model_name := "claude-3-sonnet-20240229";
  cfg_temperature := 0x1.6666666666666p-1%float;
  cfg_max_tokens := 1000;
  system_prompt := "You are a helpful AI assistant. You are knowledgeable, friendly, and aim to provide accurate and helpful responses. You can engage in conversations on a wide variety of topics."
|}.

(** ** AnthropicChatbot *)

Record AnthropicChatbot := {
  config : ChatbotConfig;
  llm : ChatAnthropic;
  prompt : ChatPromptTemplate;
  chain : Chain
}.

Definition API_KEY_REQUIRED : exn :=
  Exn ValueError "ANTHROPIC_API_KEY environment variable is required".

(** [setup_llm]: the key comes from the environment; [not api_key] holds
    for [None] and for the empty string. *)
Definition setup_llm (cfg : ChatbotConfig) (env : Environ) : Result ChatAnthropic :=
  let api_key := getenv env "ANTHROPIC_API_KEY" in
  if negb (truthy_opt api_key) then Raise API_KEY_REQUIRED
  else Ok {| model := model_name cfg;
             temperature := cfg_temperature cfg;
             max_tokens := cfg_max_tokens cfg;
             anthropic_api_key := default "" api_key |}.

Definition setup_prompt_template (cfg : ChatbotConfig) : ChatPromptTemplate :=
  [ Literal (SystemMessage (system_prompt cfg));
    MessagesPlaceholder "chat_history";
    HumanVariable "input" ].

Definition setup_chain (p : ChatPromptTemplate) (l : ChatAnthropic) : Chain :=
  {| chain_prompt := p; chain_llm := l |}.

(** [AnthropicChatbot(config)] *)
Definition AnthropicChatbot_init (cfg : ChatbotConfig) (env : Environ)
  : Result AnthropicChatbot :=
  bind (setup_llm cfg env) (λ l,
  let p := setup_prompt_template cfg in
  Ok {| config := cfg; llm := l; prompt := p; chain := setup_chain p l |}).

(** The loop of [get_response] that turns the history into message objects:
    a turn whose role is ["user"] becomes a human message, every other turn
    an AI message. *)
Definition convert_history (chat_history : list Turn) : list Message :=
  map (λ msg, if String.eqb (role msg) "user"
              then HumanMessage (content msg)
              else AIMessage (content msg)) chat_history.

(** [get_response(user_input, chat_history)]; [None] stands for the omitted
    argument. *)
Definition get_response (invoke : Invoker) (self : AnthropicChatbot)
    (user_input : string) (chat_history : option (list Turn)) (w : World)
  : Result string * World :=
  let chat_history := default [] chat_history in
  let messages := convert_history chat_history in
  chain_invoke invoke (chain self)
    {| var_input := user_input; var_chat_history := messages |} w.

(** ** The Streamlit page *)

Module Streamlit.

(** What the widgets of the page hand to one run of the script. *)
Record Widgets := {
  api_key : string;               (* st.text_input *)
  model_choice : string;          (* st.selectbox *)
  temperature_slider : float;     (* st.slider *)
  max_tokens_input : Z;           (* st.number_input *)
  system_prompt_area : string;    (* st.text_area *)
  clear_button : bool;            (* st.button *)
  chat_input : option string      (* st.chat_input *)
}.

Inductive UiEvent :=
| Title (s : string)
| Markdown (s : string)
| Header (s : string)
| ChatMessage (role : string) (body : string)
| Error (s : string)
| Info (s : string)
| Warning (s : string).

(** The state one run of the script works on: the ["messages"] entry of
    [st.session_state] ([None] while the key is absent), the elements drawn
    so far, and the world. *)
Record Script := {
  session_messages : option (list Turn);
  page : list UiEvent;
  world : World
}.

Definition show (e : UiEvent) (s : Script) : Script :=
  {| session_messages := session_messages s; page := page s ++ [e]; world := world s |}.

Definition set_messages (m : list Turn) (s : Script) : Script :=
  {| session_messages := Some m; page := page s; world := world s |}.

Definition set_world (w : World) (s : Script) : Script :=
  {| session_messages := session_messages s; page := page s; world := w |}.

(** The transcript the page holds; an absent key reads as no turns. *)
Definition messages (s : Script) : list Turn := default [] (session_messages s).

(** How a run of the script ends: at its last line, by [st.rerun()], or by
    an exception that leaves [main]. *)
Inductive MainExit :=
| Done
| Rerun
| Raised (e : exn).

(** The body of [if prompt := st.chat_input(..)], with its [try]. *)
Definition chat_block (invoke : Invoker) (chatbot : AnthropicChatbot)
    (prompt : string) (s : Script) : MainExit * Script :=
  let s := set_messages (messages s ++ [user_turn prompt]) s in
  let s := show (ChatMessage "user" prompt) s in
  match get_response invoke chatbot prompt (Some (removelast (messages s))) (world s) with
  | (Ok response, w) =>
      let s := set_world w s in
      let s := show (ChatMessage "assistant" response) s in
      (Done, set_messages (messages s ++ [assistant_turn response]) s)
  | (Raise e, w) =>
      let s := set_world w s in
      if is_Exception e then (Done, show (Error ("Error: " +:+ str e)) s)
      else (Raised e, s)
  end.

(** The handler of the outer [try] of [main]. *)
Definition init_failed (e : exn) (s : Script) : MainExit * Script :=
  if is_Exception e then
    let s := show (Error ("Failed to initialize chatbot: " +:+ str e)) s in
    (Done, show (Info "Please check your API key and try again.") s)
  else (Raised e, s).

Definition GET_STARTED : string :=
  nl +:+ "        To get started:" +:+ nl +:+
  "        1. Get your API key from https://console.anthropic.com/" +:+ nl +:+
  "        2. Enter it in the sidebar" +:+ nl +:+
  "        3. Start chatting!" +:+ nl +:+ "        ".

(** [main()], one run of the script.  [runtime_fault] is the exception the
    first Streamlit call raises when the widget runtime cannot be set up. *)
Definition main (invoke : Invoker) (runtime_fault : option exn)
    (inp : Widgets) (s : Script) : MainExit * Script :=
  match runtime_fault with
  | Some e => (Raised e, s)
  | None =>
    let s := show (Title "🤖 LangChain Anthropic Chatbot") s in
    let s := show (Markdown "A chatbot powered by LangChain and Anthropic's Claude API") s in
    let s := show (Header "Configuration") s in
    let s := if truthy (api_key inp)
             then set_world (setenv "ANTHROPIC_API_KEY" (api_key inp) (world s)) s
             else s in
    if clear_button inp then (Rerun, set_messages [] s)
    else if truthy (api_key inp) then
      let config := {| model_name := model_choice inp;
                       cfg_temperature := temperature_slider inp;
                       cfg_max_tokens := max_tokens_input inp;
                       system_prompt := system_prompt_area inp |} in
      match AnthropicChatbot_init config (environ (world s)) with
      | Raise e => init_failed e s
      | Ok chatbot =>
          let s := match session_messages s with
                   | None => set_messages [] s
                   | Some _ => s
                   end in
          let s := fold_left (λ s message,
                     show (ChatMessage (role message) (content message)) s)
                     (messages s) s in
          if truthy_opt (chat_input inp)
          then match chat_block invoke chatbot (default "" (chat_input inp)) s with
               | (Raised e, s) => init_failed e s
               | r => r
               end
          else (Done, s)
      end
    else
      let s := show (Warning "Please enter your Anthropic API key in the sidebar to start chatting.") s in
      (Done, show (Info GET_STARTED) s)
  end.

(** The run that follows [st.rerun()]: the button reads false again and
    the chat box holds nothing. *)
Definition after_rerun (inp : Widgets) : Widgets :=
  {| api_key := api_key inp; model_choice := model_choice inp;
     temperature_slider := temperature_slider inp;
     max_tokens_input := max_tokens_input inp;
     system_prompt_area := system_prompt_area inp;
     clear_button := false; chat_input := None |}.

End Streamlit.

(** ** The terminal front end *)

Module CLI.

Record CLIChatbot := {
  cli_config : ChatbotConfig;
  chatbot : AnthropicChatbot;
  chat_history : list Turn
}.

(** [CLIChatbot()] *)
Definition CLIChatbot_init (env : Environ) : Result CLIChatbot :=
  let cfg := ChatbotConfig_init in
  bind (AnthropicChatbot_init cfg env) (λ bot,
  Ok {| cli_config := cfg; chatbot := bot; chat_history := [] |}).

Definition set_chat_history (h : list Turn) (self : CLIChatbot) : CLIChatbot :=
  {| cli_config := cli_config self; chatbot := chatbot self; chat_history := h |}.

(** How one pass through the body of [while True] ends. *)
Inductive Flow :=
| Continue
| Break
| Propagate (e : exn).

(** The body of the loop, for the line [input] has read. *)
Definition loop_body (invoke : Invoker) (line : string) (self : CLIChatbot) (w : World)
  : Flow * CLIChatbot * World :=
  let user_input := strip line in
  if String.eqb (lower user_input) "quit" then
    (Break, self, print "Goodbye!" w)
  else if String.eqb (lower user_input) "clear" then
    (Continue, set_chat_history [] self, print "Chat history cleared." w)
  else if negb (truthy user_input) then
    (Continue, self, w)
  else
    match get_response invoke (chatbot self) user_input (Some (chat_history self)) w with
    | (Ok response, w) =>
        let w := print (nl +:+ "Assistant: " +:+ response) w in
        let self := set_chat_history (chat_history self ++ [user_turn user_input]) self in
        let self := set_chat_history (chat_history self ++ [assistant_turn response]) self in
        (Continue, self, w)
    | (Raise e, w) =>
        if is_Exception e then (Continue, self, print ("Error: " +:+ str e) w)
        else (Propagate e, self, w)
    end.

(** How [run] ends: by [quit], or by an exception nothing catches. *)
Inductive Exit :=
| Finished
| Uncaught (e : exn).

(** The remote model over a whole session: its reply may depend on the
    requests it has seen. *)
Definition Remote := list Request → Invoker.

Definition INPUT_PROMPT : string := nl +:+ "You: ".

(** [while True: ...] over the lines standard input still holds; at the end
    of input [input] raises [EOFError], outside the [try]. *)
Fixpoint loop (remote : Remote) (stdin : list string) (self : CLIChatbot) (w : World)
  : Exit * CLIChatbot * World :=
  let w := print INPUT_PROMPT w in
  match stdin with
  | [] => (Uncaught (Exn EOFError "EOF when reading a line"), self, w)
  | line :: rest =>
      match loop_body (remote (calls w)) line self w with
      | (Continue, self, w) => loop remote rest self w
      | (Break, self, w) => (Finished, self, w)
      | (Propagate e, self, w) => (Uncaught e, self, w)
      end
  end.

(** [run()] *)
Definition run (remote : Remote) (stdin : list string) (self : CLIChatbot) (w : World)
  : Exit * CLIChatbot * World :=
  let w := print "🤖 LangChain Anthropic Chatbot" w in
  let w := print "Type 'quit' to exit, 'clear' to clear history" w in
  let w := print "--------------------------------------------------" w in
  loop remote stdin self w.

(** The history each pass of the loop starts with, first pass first. *)
Fixpoint histories (remote : Remote) (stdin : list string) (self : CLIChatbot) (w : World)
  : list (list Turn) :=
  chat_history self ::
  match stdin with
  | [] => []
  | line :: rest =>
      let w := print INPUT_PROMPT w in
      match loop_body (remote (calls w)) line self w with
      | (Continue, self, w) => histories remote rest self w
      | _ => []
      end
  end.

End CLI.

(** ** Start-up of the module *)

Module Program.
Import Streamlit CLI.

(** What the host offers: whether [import streamlit] succeeds, and the
    exception the widget runtime raises when it cannot be set up. *)
Record Host := {
  streamlit_importable : bool;
  runtime_fault : option exn
}.

Definition NO_STREAMLIT : exn := Exn ImportError "No module named 'streamlit'".

(** Which front end the process ended in, and how. *)
Inductive Outcome :=
| ImportCrash (e : exn)                       (* the imports at the top raised *)
| WidgetRan (r : MainExit) (s : Script)
| TerminalFailed (e : exn) (w : World)        (* [CLIChatbot()] raised *)
| TerminalRan (r : CLI.Exit) (bot : CLIChatbot) (w : World).

(** The two handlers of the start-up block share their last two lines. *)
Definition start_cli (remote : Remote) (stdin : list string) (w : World) : Outcome :=
  match CLIChatbot_init (environ w) with
  | Raise e => TerminalFailed e w
  | Ok cli_bot => let '(r, bot, w) := run remote stdin cli_bot w in TerminalRan r bot w
  end.

(** The module from its first line: the imports, then the block under
    [if __name__ == "__main__"]. *)
Definition start (host : Host) (remote : Remote) (inp : Widgets) (stdin : list string)
    (s : Script) : Outcome :=
  if negb (streamlit_importable host) then ImportCrash NO_STREAMLIT
  else
    match main (remote (calls (world s))) (runtime_fault host) inp s with
    | (Raised e, s') =>
        if is_ImportError e then
          start_cli remote stdin (print "Streamlit not available. Using CLI version." (world s'))
        else if is_Exception e then start_cli remote stdin (world s')
        else WidgetRan (Raised e) s'
    | (r, s') => WidgetRan r s'
    end.

End Program.

(** ** The extended chatbot *)

Module Advanced.

(** The dict [{"model": .., "temperature": .., "timestamp": ..}]. *)
Record Metadata := {
  md_model : string;
  md_temperature : float;
  md_timestamp : string
}.

(** The dict [{"response": .., "metadata": ..}]. *)
Record Sourced := { response : string; metadata : Metadata }.

(** [setup_advanced_features]: its body is [pass]. *)
Definition setup_advanced_features (self : AnthropicChatbot) : AnthropicChatbot := self.

(** [AdvancedChatbot(config)] *)
Definition AdvancedChatbot_init (cfg : ChatbotConfig) (env : Environ)
  : Result AnthropicChatbot :=
  bind (AnthropicChatbot_init cfg env) (λ self, Ok (setup_advanced_features self)).

(** [get_response_with_sources(user_input, chat_history)] *)
Definition get_response_with_sources (invoke : Invoker) (self : AnthropicChatbot)
    (user_input : string) (chat_history : option (list Turn)) (w : World)
  : Result Sourced * World :=
  match get_response invoke self user_input chat_history w with
  | (Ok response, w) =>
      let metadata := {| md_model := model_name (config self);
                         md_temperature := cfg_temperature (config self);
                         md_timestamp := "2024-01-15T10:30:00Z" |} in
      (Ok {| response := response; metadata := metadata |}, w)
  | (Raise e, w) => (Raise e, w)
  end.

End Advanced.

(** * Properties *)

(** ** Prompt assembly *)

(** The message sequence [get_response] has the chain build for a chatbot
    configured by [cfg], a history [h] and a new text [t]. *)
Definition assemble (cfg : ChatbotConfig) (h : list Turn) (t : string)
  : Result (list Message) :=
  format_messages (setup_prompt_template cfg)
    {| var_input := t; var_chat_history := convert_history h |}.

(** The request a chatbot sends for history [h] and text [t]. *)
Definition request_of (bot : AnthropicChatbot) (h : list Turn) (t : string) : Request :=
  {| req_llm := llm bot;
     req_messages :=
       SystemMessage (system_prompt (config bot)) :: convert_history h ++ [HumanMessage t] |}.

Definition user_or_assistant (x : Turn) : Prop :=
  role x = "user" ∨ role x = "assistant".

(** The chatbot one run of the page builds from its widgets, once the key
    field is filled and stored in the environment. *)
Definition page_config (inp : Streamlit.Widgets) : ChatbotConfig :=
  {| model_name := Streamlit.model_choice inp;
     cfg_temperature := Streamlit.temperature_slider inp;
     cfg_max_tokens := Streamlit.max_tokens_input inp;
     system_prompt := Streamlit.system_prompt_area inp |}.

Definition page_llm (inp : Streamlit.Widgets) : ChatAnthropic :=
  {| model := Streamlit.model_choice inp;
     temperature := Streamlit.temperature_slider inp;
     max_tokens := Streamlit.max_tokens_input inp;
     anthropic_api_key := Streamlit.api_key inp |}.

Definition page_chatbot (inp : Streamlit.Widgets) : AnthropicChatbot :=
  {| config := page_config inp;
     llm := page_llm inp;
     prompt := setup_prompt_template (page_config inp);
     chain := setup_chain (setup_prompt_template (page_config inp)) (page_llm inp) |}.

(** The page as one run leaves it just before it looks at the chat box. *)
Definition page_ready (inp : Streamlit.Widgets) (s : Streamlit.Script) : Streamlit.Script :=
  let s := Streamlit.show (Streamlit.Title "🤖 LangChain Anthropic Chatbot") s in
  let s := Streamlit.show
             (Streamlit.Markdown "A chatbot powered by LangChain and Anthropic's Claude API") s in
  let s := Streamlit.show (Streamlit.Header "Configuration") s in
  let s := Streamlit.set_world
             (setenv "ANTHROPIC_API_KEY" (Streamlit.api_key inp) (Streamlit.world s)) s in
  let s := Streamlit.set_messages (Streamlit.messages s) s in
  fold_left (λ s message,
    Streamlit.show (Streamlit.ChatMessage (role message) (content message)) s)
    (Streamlit.messages s) s.

(** The error texts among the elements drawn on a page. *)
Definition errors_shown (pg : list Streamlit.UiEvent) : list string :=
  flat_map (λ ev, match ev with Streamlit.Error m => [m] | _ => [] end) pg.

(** A history made of pairs: a user turn, then an assistant turn. *)
Fixpoint alternates (h : list Turn) : bool :=
  match h with
  | [] => true
  | u :: a :: rest =>
      String.eqb (role u) "user" && String.eqb (role a) "assistant" && alternates rest
  | [_] => false
  end.

(** A terminal session as its constructor leaves it: no history yet. *)
Definition fresh_session (cfg : ChatbotConfig) (bot : AnthropicChatbot) : CLI.CLIChatbot :=
  {| CLI.cli_config := cfg; CLI.chatbot := bot; CLI.chat_history := [] |}.

(** A message list a chat model takes after the system message: human and
    AI messages in turn, the first and the last one human. *)
Fixpoint human_first (ms : list Message) : bool :=
  match ms with
  | [HumanMessage _] => true
  | HumanMessage _ :: AIMessage _ :: rest => human_first rest
  | _ => false
  end.

(** A request that opens with one system message and goes on as above. *)
Definition well_formed_request (r : Request) : bool :=
  match req_messages r with
  | SystemMessage _ :: ms => human_first ms
  | _ => false
  end.

(** The remote model only fails with exceptions below [Exception]. *)
Definition raises_only_Exception (remote : CLI.Remote) : Prop :=
  ∀ seen r e, remote seen r = Raise e → is_Exception e = true.

Definition EOF_ERROR : exn := Exn EOFError "EOF when reading a line".

(** Sample data for the instances below. *)
Definition sample_env : Environ := {[ "ANTHROPIC_API_KEY" := "sk-test" ]}.

Definition sample_world : World := {| environ := sample_env; stdout := []; calls := [] |}.

Definition sample_bot : AnthropicChatbot :=
  {| config := ChatbotConfig_init;
     llm := {| model := model_name ChatbotConfig_init;
               temperature := cfg_temperature ChatbotConfig_init;
               max_tokens := cfg_max_tokens ChatbotConfig_init;
               anthropic_api_key := "sk-test" |};
     prompt := setup_prompt_template ChatbotConfig_init;
     chain := setup_chain (setup_prompt_template ChatbotConfig_init)
                {| model := model_name ChatbotConfig_init;
                   temperature := cfg_temperature ChatbotConfig_init;
                   max_tokens := cfg_max_tokens ChatbotConfig_init;
                   anthropic_api_key := "sk-test" |} |}.

Definition sample_cli : CLI.CLIChatbot :=
  {| CLI.cli_config := ChatbotConfig_init; CLI.chatbot := sample_bot; CLI.chat_history := [] |}.

Definition sample_widgets (clear : bool) (box : option string) : Streamlit.Widgets :=
  {| Streamlit.api_key := "sk-test";
     Streamlit.model_choice := "claude-3-haiku-20240307";
     Streamlit.temperature_slider := 0.5%float;
     Streamlit.max_tokens_input := 100;
     Streamlit.system_prompt_area := "Be brief.";
     Streamlit.clear_button := clear;
     Streamlit.chat_input := box |}.

Definition sample_script : Streamlit.Script :=
  {| Streamlit.session_messages := None; Streamlit.page := [];
     Streamlit.world := {| environ := ∅; stdout := []; calls := [] |} |}.

Definition always (r : Result string) : Invoker := λ _, r.

Definition BOOM : exn := Exn OtherException "connection refused".

Example strip_ex : strip ("  Quit " +:+ nl) = "Quit".
Proof. reflexivity. Qed.

Example lower_ex : lower "CLeaR" = "clear".
Proof. reflexivity. Qed.

Example getenv_ex :
  getenv (<["ANTHROPIC_API_KEY" := "k"]> ∅) "ANTHROPIC_API_KEY" = Some "k".
Proof. reflexivity. Qed.

Lemma assemble_eq cfg h t :
  assemble cfg h t =
  Ok (SystemMessage (system_prompt cfg) :: convert_history h ++ [HumanMessage t]).
Proof. reflexivity. Qed.

Lemma convert_history_content h :
  map message_content (convert_history h) = map content h.
Proof.
  unfold convert_history.
  induction h as [|x h IH]; [reflexivity|].
  cbn [map]. rewrite IH. by destruct (String.eqb (role x) "user").
Qed.

Lemma convert_history_role h :
  Forall user_or_assistant h →
  map message_role (convert_history h) = map role h.
Proof.
  unfold convert_history.
  induction 1 as [|x h Hx _ IH]; [reflexivity|].
  cbn [map]. rewrite IH. f_equal.
  destruct Hx as [-> | ->]; reflexivity.
Qed.

Lemma convert_history_other x :
  role x ≠ "user" → convert_history [x] = [AIMessage (content x)].
Proof.
  intros Hx. cbn.
  destruct (String.eqb_spec (role x) "user") as [E|_]; [by destruct Hx | done].
Qed.

(** ** Construction *)

Lemma truthy_opt_false o : truthy_opt o = false ↔ (o = None ∨ o = Some "").
Proof.
  destruct o as [[|c k]|]; cbn; split; intros H; auto; try discriminate;
    destruct H as [H|H]; discriminate.
Qed.

Lemma truthy_true s : truthy s = true ↔ s ≠ "".
Proof. destruct s; cbn; split; intros H; congruence. Qed.

Lemma setup_llm_ok cfg env key :
  getenv env "ANTHROPIC_API_KEY" = Some key → key ≠ "" →
  setup_llm cfg env =
  Ok {| model := model_name cfg; temperature := cfg_temperature cfg;
        max_tokens := cfg_max_tokens cfg; anthropic_api_key := key |}.
Proof.
  intros Hk Hne. unfold setup_llm. rewrite Hk. cbn.
  apply truthy_true in Hne. by rewrite Hne.
Qed.

(** A chatbot that the constructor returned sends [request_of]. *)
Lemma init_inv cfg env bot :
  AnthropicChatbot_init cfg env = Ok bot →
  config bot = cfg ∧
  chain bot = {| chain_prompt := setup_prompt_template cfg; chain_llm := llm bot |}.
Proof.
  unfold AnthropicChatbot_init. destruct (setup_llm cfg env) as [l|e]; cbn; [|done].
  intros [= <-]. done.
Qed.

Lemma get_response_eq invoke cfg env bot t h w :
  AnthropicChatbot_init cfg env = Ok bot →
  get_response invoke bot t (Some h) w =
  (invoke (request_of bot h t), record_call (request_of bot h t) w).
Proof.
  intros Hb. destruct (init_inv _ _ _ Hb) as [Hc Hch].
  unfold get_response, chain_invoke, chain_request. rewrite Hch. cbn.
  unfold request_of. by rewrite Hc.
Qed.

(** C3 as the specification words it: for every history the roles of the
    assembled messages are the system role, the history's roles, the user
    role.  A history turn with the system role refutes it: the conversion
    sends it as an assistant message. *)
Lemma assemble_role_for_role_fails :
  ¬ (∀ (cfg : ChatbotConfig) (h : list Turn) (t : string),
       ∃ ms, assemble cfg h t = Ok ms ∧
             map message_role ms = "system" :: map role h ++ ["user"] ∧
             map message_content ms = system_prompt cfg :: map content h ++ [t]).
Proof.
  intros H.
  destruct (H ChatbotConfig_init [{| role := "system"; content := "x" |}] "c")
    as (ms & Hms & Hr & _).
  rewrite assemble_eq in Hms. injection Hms as <-. discriminate Hr.
Qed.

(** C3, amended: for every configuration, every history whose turns carry
    the role user or assistant, and every new text, the assembled sequence is
    the system message (whatever its text), then the history in order with
    roles and contents kept, then one user message with the new text; a turn
    with any other role is sent as an assistant message.  The two examples of
    the specification follow. *)
Theorem assemble_order (cfg : ChatbotConfig) (h : list Turn) (t : string) :
  Forall user_or_assistant h →
  ∃ ms,
    assemble cfg h t = Ok (SystemMessage (system_prompt cfg) :: ms ++ [HumanMessage t]) ∧
    map message_role ms = map role h ∧
    map message_content ms = map content h ∧
    length ms = length h ∧
    (∀ x, role x ≠ "user" → convert_history [x] = [AIMessage (content x)]) ∧
    assemble cfg [user_turn "a"; assistant_turn "b"] "c" =
      Ok [SystemMessage (system_prompt cfg); HumanMessage "a"; AIMessage "b"; HumanMessage "c"] ∧
    assemble cfg [] t = Ok [SystemMessage (system_prompt cfg); HumanMessage t].
Proof.
  intros Hh. exists (convert_history h). repeat split.
  - by apply convert_history_role.
  - apply convert_history_content.
  - unfold convert_history. by rewrite length_map.
  - apply convert_history_other.
Qed.

Lemma assemble_order_witness :
  ∃ ms,
    assemble ChatbotConfig_init [user_turn "hi"; assistant_turn "hello"] "bye" =
      Ok (SystemMessage (system_prompt ChatbotConfig_init) :: ms ++ [HumanMessage "bye"]) ∧
    map message_role ms = ["user"; "assistant"].
Proof.
  destruct (assemble_order ChatbotConfig_init [user_turn "hi"; assistant_turn "hello"] "bye")
    as (ms & H1 & H2 & _).
  - constructor; [by left | constructor; [by right | constructor]].
  - exists ms. split; [exact H1 | exact H2].
Defined.

(** C5: the constructor raises exactly when [ANTHROPIC_API_KEY] is unset or
    empty; it then raises the [ValueError] of [setup_llm], no chatbot comes
    back, the terminal front end fails in its constructor before [run] starts,
    and nothing has been sent or printed. *)
Theorem construction_fails_iff_no_key (cfg : ChatbotConfig) (env : Environ) :
  ((∃ e, AnthropicChatbot_init cfg env = Raise e) ↔
   (getenv env "ANTHROPIC_API_KEY" = None ∨ getenv env "ANTHROPIC_API_KEY" = Some "")) ∧
  (∀ e, AnthropicChatbot_init cfg env = Raise e →
     e = API_KEY_REQUIRED ∧
     CLI.CLIChatbot_init env = Raise API_KEY_REQUIRED ∧
     ∀ remote stdin w, environ w = env →
       Program.start_cli remote stdin w = Program.TerminalFailed API_KEY_REQUIRED w).
Proof.
  assert (Hcase : ∀ c, AnthropicChatbot_init c env =
            if truthy_opt (getenv env "ANTHROPIC_API_KEY")
            then Ok {| config := c;
                       llm := {| model := model_name c; temperature := cfg_temperature c;
                                 max_tokens := cfg_max_tokens c;
                                 anthropic_api_key := default "" (getenv env "ANTHROPIC_API_KEY") |};
                       prompt := setup_prompt_template c;
                       chain := setup_chain (setup_prompt_template c)
                                  {| model := model_name c; temperature := cfg_temperature c;
                                     max_tokens := cfg_max_tokens c;
                                     anthropic_api_key := default "" (getenv env "ANTHROPIC_API_KEY") |} |}
            else Raise API_KEY_REQUIRED).
  { intros c. unfold AnthropicChatbot_init, setup_llm. cbv zeta.
    by destruct (truthy_opt (getenv env "ANTHROPIC_API_KEY")). }
  split.
  - rewrite Hcase, <- truthy_opt_false.
    destruct (truthy_opt (getenv env "ANTHROPIC_API_KEY")); split.
    + intros [e He]. discriminate.
    + discriminate.
    + done.
    + intros _. by eexists.
  - intros e He. rewrite Hcase in He.
    destruct (truthy_opt (getenv env "ANTHROPIC_API_KEY")) eqn:Ht; [discriminate|].
    injection He as <-. split; [done|].
    assert (Hcli : CLI.CLIChatbot_init env = Raise API_KEY_REQUIRED).
    { unfold CLI.CLIChatbot_init. rewrite Hcase. reflexivity. }
    split; [exact Hcli|].
    intros remote stdin w <-. unfold Program.start_cli. by rewrite Hcli.
Qed.

Lemma construction_fails_iff_no_key_witness :
  (∃ e, AnthropicChatbot_init ChatbotConfig_init ∅ = Raise e) ∧
  CLI.CLIChatbot_init ∅ = Raise API_KEY_REQUIRED ∧
  ¬ (∃ e, AnthropicChatbot_init ChatbotConfig_init sample_env = Raise e).
Proof.
  destruct (construction_fails_iff_no_key ChatbotConfig_init ∅) as [[_ Hfail] Hwhy].
  destruct (construction_fails_iff_no_key ChatbotConfig_init sample_env) as [[Hkey _] _].
  assert (Hnone : ∃ e, AnthropicChatbot_init ChatbotConfig_init ∅ = Raise e).
  { apply Hfail. left. reflexivity. }
  split; [exact Hnone|]. split.
  - destruct Hnone as [e He]. destruct (Hwhy e He) as (_ & Hcli & _). exact Hcli.
  - intros Hex. destruct (Hkey Hex) as [H|H]; vm_compute in H; discriminate H.
Defined.

(** ** One pass of the terminal loop *)

Section TerminalStep.
Import CLI.
Variable invoke : Invoker.

Lemma lstrip_blank s : blank s = true → lstrip s = "".
Proof.
  induction s as [|c s IH]; cbn; [done|].
  destruct (isspace c); cbn; [exact IH | discriminate].
Qed.

Lemma strip_blank s : blank s = true → strip s = "".
Proof. intros H. unfold strip. by rewrite lstrip_blank. Qed.

Lemma loop_body_quit line self w :
  lower (strip line) = "quit" →
  loop_body invoke line self w = (Break, self, print "Goodbye!" w).
Proof. intros H. unfold loop_body. cbv zeta. by rewrite H. Qed.

Lemma loop_body_clear line self w :
  lower (strip line) = "clear" →
  loop_body invoke line self w =
  (Continue, set_chat_history [] self, print "Chat history cleared." w).
Proof. intros H. unfold loop_body. cbv zeta. by rewrite H. Qed.

Lemma loop_body_empty line self w :
  strip line = "" → loop_body invoke line self w = (Continue, self, w).
Proof. intros H. unfold loop_body. cbv zeta. by rewrite H. Qed.

Lemma loop_body_submit cfg env line self w :
  AnthropicChatbot_init cfg env = Ok (chatbot self) →
  strip line ≠ "" → lower (strip line) ≠ "quit" → lower (strip line) ≠ "clear" →
  loop_body invoke line self w =
  let r := request_of (chatbot self) (chat_history self) (strip line) in
  match invoke r with
  | Ok response =>
      (Continue,
       set_chat_history
         (chat_history self ++ [user_turn (strip line); assistant_turn response]) self,
       print (nl +:+ "Assistant: " +:+ response) (record_call r w))
  | Raise e =>
      if is_Exception e
      then (Continue, self, print ("Error: " +:+ str e) (record_call r w))
      else (Propagate e, self, record_call r w)
  end.
Proof.
  intros Hb Hne Hq Hc. unfold loop_body. cbv zeta.
  destruct (String.eqb_spec (lower (strip line)) "quit") as [?|_]; [done|].
  destruct (String.eqb_spec (lower (strip line)) "clear") as [?|_]; [done|].
  apply truthy_true in Hne. rewrite Hne. cbn [negb].
  rewrite (get_response_eq _ _ _ _ _ _ _ Hb).
  destruct (invoke _) as [response|e]; [|done].
  unfold set_chat_history. cbn. by rewrite <- app_assoc.
Qed.

(** Whatever the line, the pass keeps the configuration, the chatbot and
    the environment, and leaves the history as it was, empties it, or adds
    a user turn and an assistant turn after a call that succeeded. *)
Lemma loop_body_cases line self w :
  ∃ f self' w',
    loop_body invoke line self w = (f, self', w') ∧
    cli_config self' = cli_config self ∧ chatbot self' = chatbot self ∧
    environ w' = environ w ∧
    (chat_history self' = chat_history self ∨
     chat_history self' = [] ∧ calls w' = calls w ∨
     ∃ response r,
       invoke r = Ok response ∧ calls w' = calls w ++ [r] ∧ f = Continue ∧
       chat_history self' =
         chat_history self ++ [user_turn (strip line); assistant_turn response]).
Proof.
  unfold loop_body. cbv zeta.
  destruct (String.eqb _ "quit"); [by eexists _, _, _; repeat split; auto|].
  destruct (String.eqb _ "clear"); [by eexists _, _, _; repeat split; auto|].
  destruct (negb _); [by eexists _, _, _; repeat split; auto|].
  unfold get_response, chain_invoke.
  destruct (chain_request _ _) as [r|e].
  - destruct (invoke r) as [response|e] eqn:Hr.
    + eexists _, _, _; repeat split. right; right. exists response, r.
      repeat split; [done|]. cbn. by rewrite <- app_assoc.
    + destruct (is_Exception e); eexists _, _, _; repeat split; auto.
  - destruct (is_Exception e); eexists _, _, _; repeat split; auto.
Qed.

End TerminalStep.

(** ** One run of the page *)

Section PageRun.
Import Streamlit.
Variable invoke : Invoker.

Lemma page_init inp env :
  api_key inp ≠ "" →
  AnthropicChatbot_init (page_config inp) (<["ANTHROPIC_API_KEY" := api_key inp]> env)
  = Ok (page_chatbot inp).
Proof.
  intros Hk. unfold AnthropicChatbot_init.
  rewrite (setup_llm_ok _ _ (api_key inp)); [reflexivity| |exact Hk].
  unfold getenv. apply lookup_insert_eq.
Qed.

Lemma fold_show (f : Turn → UiEvent) l s :
  fold_left (λ s m, show (f m) s) l s =
  {| session_messages := session_messages s;
     page := page s ++ map f l; world := world s |}.
Proof.
  revert s. induction l as [|m l IH]; intros s; cbn [fold_left map].
  - rewrite app_nil_r. by destruct s.
  - rewrite IH. cbn. by rewrite <- app_assoc.
Qed.

Lemma page_ready_eq inp s :
  page_ready inp s =
  {| session_messages := Some (messages s);
     page := page s ++
             [Title "🤖 LangChain Anthropic Chatbot";
              Markdown "A chatbot powered by LangChain and Anthropic's Claude API";
              Header "Configuration"] ++
             map (λ m, ChatMessage (role m) (content m)) (messages s);
     world := setenv "ANTHROPIC_API_KEY" (api_key inp) (world s) |}.
Proof.
  unfold page_ready. cbv zeta. rewrite fold_show. cbn.
  by rewrite <- !app_assoc.
Qed.

Lemma page_ready_messages inp s : messages (page_ready inp s) = messages s.
Proof. by rewrite page_ready_eq. Qed.

Lemma page_ready_world inp s :
  world (page_ready inp s) = setenv "ANTHROPIC_API_KEY" (api_key inp) (world s).
Proof. by rewrite page_ready_eq. Qed.

Lemma chat_block_eq cfg env bot text s :
  AnthropicChatbot_init cfg env = Ok bot →
  chat_block invoke bot text s =
  let r := request_of bot (messages s) text in
  match invoke r with
  | Ok response =>
      (Done,
       {| session_messages := Some (messages s ++ [user_turn text; assistant_turn response]);
          page := page s ++ [ChatMessage "user" text; ChatMessage "assistant" response];
          world := record_call r (world s) |})
  | Raise e =>
      let s' := {| session_messages := Some (messages s ++ [user_turn text]);
                   page := page s ++ [ChatMessage "user" text];
                   world := record_call r (world s) |} in
      if is_Exception e then (Done, show (Error ("Error: " +:+ str e)) s')
      else (Raised e, s')
  end.
Proof.
  intros Hb. unfold chat_block. cbv zeta.
  cbn [messages session_messages set_messages show world default].
  unfold id. rewrite removelast_last, (get_response_eq _ _ _ _ _ _ _ Hb).
  destruct (invoke _) as [response|e]; unfold set_messages, show, set_world; cbn.
  - by rewrite <- !app_assoc.
  - done.
Qed.

(** An exception that leaves the chat block is no [Exception], so the
    outer handler of [main] lets it pass as well. *)
Lemma chat_block_outer bot text s :
  match chat_block invoke bot text s with
  | (Raised e, s') => init_failed e s'
  | r => r
  end = chat_block invoke bot text s.
Proof.
  unfold chat_block. cbv zeta.
  destruct (get_response _ _ _ _ _) as [[response|e] w]; [done|].
  destruct (is_Exception e) eqn:He; [done|].
  unfold init_failed. by rewrite He.
Qed.

Lemma errors_shown_app pg pg' :
  errors_shown (pg ++ pg') = errors_shown pg ++ errors_shown pg'.
Proof. apply flat_map_app. Qed.

Lemma errors_shown_history (h : list Turn) :
  errors_shown (map (λ m, ChatMessage (role m) (content m)) h) = [].
Proof. induction h as [|m h IH]; [done | exact IH]. Qed.

Lemma main_fault e inp s : main invoke (Some e) inp s = (Raised e, s).
Proof. reflexivity. Qed.

Lemma main_clear inp s :
  clear_button inp = true →
  ∃ s', main invoke None inp s = (Rerun, s') ∧
        session_messages s' = Some [] ∧
        calls (world s') = calls (world s) ∧
        errors_shown (page s') = errors_shown (page s).
Proof.
  intros Hc. unfold main. rewrite Hc. eexists; split; [reflexivity|].
  destruct (truthy (api_key inp)); cbn; rewrite !errors_shown_app, !app_nil_r; done.
Qed.

Lemma main_no_key inp s :
  clear_button inp = false → api_key inp = "" →
  ∃ s', main invoke None inp s = (Done, s') ∧
        session_messages s' = session_messages s ∧
        world s' = world s ∧
        errors_shown (page s') = errors_shown (page s).
Proof.
  intros Hc Hk. unfold main. rewrite Hc, Hk. cbn.
  eexists; split; [reflexivity|]. cbn. rewrite !errors_shown_app, !app_nil_r. done.
Qed.

Lemma main_ready inp s :
  clear_button inp = false → api_key inp ≠ "" →
  main invoke None inp s =
  if truthy_opt (chat_input inp)
  then chat_block invoke (page_chatbot inp) (default "" (chat_input inp)) (page_ready inp s)
  else (Done, page_ready inp s).
Proof.
  intros Hc Hk. unfold main. rewrite Hc.
  pose proof Hk as Ht. apply truthy_true in Ht. rewrite Ht.
  cbn [show set_world world environ setenv session_messages].
  fold (page_config inp). rewrite page_init by exact Hk.
  rewrite chat_block_outer.
  unfold page_ready. cbv zeta.
  destruct s as [[m|] pg w]; reflexivity.
Qed.

Lemma main_submit inp s text :
  clear_button inp = false → api_key inp ≠ "" →
  chat_input inp = Some text → text ≠ "" →
  main invoke None inp s =
  let r := request_of (page_chatbot inp) (messages s) text in
  let w := record_call r (setenv "ANTHROPIC_API_KEY" (api_key inp) (world s)) in
  let pg := page (page_ready inp s) ++ [ChatMessage "user" text] in
  match invoke r with
  | Ok response =>
      (Done,
       {| session_messages := Some (messages s ++ [user_turn text; assistant_turn response]);
          page := pg ++ [ChatMessage "assistant" response];
          world := w |})
  | Raise e =>
      let s' := {| session_messages := Some (messages s ++ [user_turn text]);
                   page := pg; world := w |} in
      if is_Exception e then (Done, show (Error ("Error: " +:+ str e)) s')
      else (Raised e, s')
  end.
Proof.
  intros Hc Hk Hi Ht. rewrite main_ready by done. rewrite Hi.
  apply truthy_true in Ht. cbn [truthy_opt]. rewrite Ht.
  change (default "" (Some text)) with text.
  rewrite (chat_block_eq _ _ _ _ _ (page_init inp ∅ Hk)). cbv zeta.
  rewrite page_ready_messages, page_ready_world.
  destruct (invoke _) as [response|e]; [|done].
  by rewrite <- app_assoc.
Qed.

End PageRun.

(** ** Submitting a text *)

Section Submit.
Import Streamlit CLI.

(** The page sends every non-empty chat text to the model, once. *)
Lemma page_submits invoke inp s text :
  clear_button inp = false → api_key inp ≠ "" →
  chat_input inp = Some text → text ≠ "" →
  ∃ r s', main invoke None inp s = (r, s') ∧
    calls (world s') =
      calls (world s) ++ [request_of (page_chatbot inp) (messages s) text] ∧
    ∃ rest, messages s' = messages s ++ user_turn text :: rest.
Proof.
  intros Hc Hk Hi Ht. rewrite (main_submit _ _ _ _ Hc Hk Hi Ht). cbv zeta.
  destruct (invoke _) as [reply|e]; [|destruct (is_Exception e)];
    eexists _, _; (split; [reflexivity|]); cbn; (split; [done|]); by eexists.
Qed.

(** The terminal loop sends every line that is not blank, [quit] or
    [clear] once it is trimmed. *)
Lemma terminal_submits invoke cfg env line self w :
  AnthropicChatbot_init cfg env = Ok (chatbot self) →
  strip line ≠ "" → lower (strip line) ≠ "quit" → lower (strip line) ≠ "clear" →
  ∃ f self' w', loop_body invoke line self w = (f, self', w') ∧
    calls w' = calls w ++ [request_of (chatbot self) (chat_history self) (strip line)].
Proof.
  intros Hb Hne Hq Hc. rewrite (loop_body_submit _ _ _ _ _ _ Hb Hne Hq Hc). cbv zeta.
  destruct (invoke _) as [reply|e]; [|destruct (is_Exception e)];
    by eexists _, _, _.
Qed.

End Submit.

(** C1: for every non-empty text, a submit whose model call succeeds adds
    exactly two turns to the transcript, the user turn with the text and then
    the assistant turn with the reply: on the page (key entered, chat box
    holding the text) and in the terminal loop (the trimmed line being the
    text, and no reserved word). *)
Theorem submit_success_appends_two (invoke : Invoker) (text reply : string) :
  text ≠ "" →
  (∀ inp s,
     Streamlit.clear_button inp = false → Streamlit.api_key inp ≠ "" →
     Streamlit.chat_input inp = Some text →
     invoke (request_of (page_chatbot inp) (Streamlit.messages s) text) = Ok reply →
     ∃ s', Streamlit.main invoke None inp s = (Streamlit.Done, s') ∧
       Streamlit.messages s' =
         Streamlit.messages s ++ [user_turn text; assistant_turn reply] ∧
       length (Streamlit.messages s') = length (Streamlit.messages s) + 2) ∧
  (∀ cfg env line self w,
     AnthropicChatbot_init cfg env = Ok (CLI.chatbot self) →
     strip line = text → lower text ≠ "quit" → lower text ≠ "clear" →
     invoke (request_of (CLI.chatbot self) (CLI.chat_history self) text) = Ok reply →
     ∃ self' w', CLI.loop_body invoke line self w = (CLI.Continue, self', w') ∧
       CLI.chat_history self' =
         CLI.chat_history self ++ [user_turn text; assistant_turn reply] ∧
       length (CLI.chat_history self') = length (CLI.chat_history self) + 2).
Proof.
  intros Ht. split.
  - intros inp s Hc Hk Hi Hr. rewrite (main_submit _ _ _ _ Hc Hk Hi Ht). cbv zeta.
    rewrite Hr.
    eexists; split; [reflexivity|]. cbn. split; [done|].
    rewrite length_app. cbn. lia.
  - intros cfg env line self w Hb <- Hq Hc Hr.
    rewrite (loop_body_submit _ _ _ _ _ _ Hb Ht Hq Hc). cbv zeta. rewrite Hr.
    eexists _, _; split; [reflexivity|]. cbn. split; [done|].
    rewrite length_app. cbn. lia.
Qed.

Lemma submit_success_appends_two_witness :
  (∃ s', Streamlit.main (always (Ok "hello")) None
           (sample_widgets false (Some "hi")) sample_script = (Streamlit.Done, s') ∧
         Streamlit.messages s' = [user_turn "hi"; assistant_turn "hello"]) ∧
  (∃ self' w', CLI.loop_body (always (Ok "hello")) "  hi " sample_cli sample_world
                 = (CLI.Continue, self', w') ∧
               CLI.chat_history self' = [user_turn "hi"; assistant_turn "hello"]).
Proof.
  destruct (submit_success_appends_two (always (Ok "hello")) "hi" "hello") as [Hp Ht];
    [discriminate|].
  split.
  - destruct (Hp (sample_widgets false (Some "hi")) sample_script) as (s' & H1 & H2 & _);
      [reflexivity | discriminate | reflexivity | reflexivity |].
    exists s'. split; [exact H1 | exact H2].
  - destruct (Ht ChatbotConfig_init sample_env "  hi " sample_cli sample_world)
      as (self' & w' & H1 & H2 & _);
      [vm_compute; reflexivity | reflexivity | discriminate | discriminate | reflexivity |].
    exists self', w'. split; [exact H1 | exact H2].
Defined.

(** C2 as the specification words it, in the terminal loop: after a failed
    model call the history would end with the user turn just typed.  The loop
    appends nothing before the call, so the history stays as it was. *)
Lemma terminal_failure_keeps_user_turn_fails :
  ¬ (∀ (invoke : Invoker) (e : exn) (line : string) (self : CLI.CLIChatbot) (w : World),
       AnthropicChatbot_init (CLI.cli_config self) (environ w) = Ok (CLI.chatbot self) →
       strip line ≠ "" → lower (strip line) ≠ "quit" → lower (strip line) ≠ "clear" →
       is_Exception e = true →
       invoke (request_of (CLI.chatbot self) (CLI.chat_history self) (strip line)) = Raise e →
       ∃ f self' w', CLI.loop_body invoke line self w = (f, self', w') ∧
         CLI.chat_history self' = CLI.chat_history self ++ [user_turn (strip line)]).
Proof.
  intros H.
  destruct (H (always (Raise BOOM)) BOOM "hi" sample_cli sample_world)
    as (f & self' & w' & Hrun & Hh); try done; try (vm_compute; reflexivity).
  vm_compute in Hrun. injection Hrun as <- <- <-. discriminate Hh.
Qed.

(** C2, amended: for every non-empty text, when the model call raises an
    exception, the error text is shown and the front end goes on.  On the page
    the transcript then ends with the user turn just added and has no new
    assistant turn; in the terminal loop the history is unchanged, so it holds
    neither a new user turn nor a new assistant turn. *)
Theorem submit_failure_is_reported (invoke : Invoker) (text : string) (e : exn) :
  text ≠ "" → is_Exception e = true →
  (∀ inp s,
     Streamlit.clear_button inp = false → Streamlit.api_key inp ≠ "" →
     Streamlit.chat_input inp = Some text →
     invoke (request_of (page_chatbot inp) (Streamlit.messages s) text) = Raise e →
     ∃ s' pg, Streamlit.main invoke None inp s = (Streamlit.Done, s') ∧
       Streamlit.messages s' = Streamlit.messages s ++ [user_turn text] ∧
       Streamlit.page s' = pg ++ [Streamlit.Error ("Error: " +:+ str e)]) ∧
  (∀ cfg env line self w,
     AnthropicChatbot_init cfg env = Ok (CLI.chatbot self) →
     strip line = text → lower text ≠ "quit" → lower text ≠ "clear" →
     invoke (request_of (CLI.chatbot self) (CLI.chat_history self) text) = Raise e →
     ∃ w', CLI.loop_body invoke line self w = (CLI.Continue, self, w') ∧
       stdout w' = stdout w ++ ["Error: " +:+ str e]).
Proof.
  intros Ht He. split.
  - intros inp s Hc Hk Hi Hr. rewrite (main_submit _ _ _ _ Hc Hk Hi Ht). cbv zeta.
    rewrite Hr, He. eexists _, _. split; [reflexivity|]. cbn. done.
  - intros cfg env line self w Hb <- Hq Hc Hr.
    rewrite (loop_body_submit _ _ _ _ _ _ Hb Ht Hq Hc). cbv zeta. rewrite Hr, He.
    eexists. split; [reflexivity|]. done.
Qed.

Lemma submit_failure_is_reported_witness :
  (∃ s' pg, Streamlit.main (always (Raise BOOM)) None
              (sample_widgets false (Some "hi")) sample_script = (Streamlit.Done, s') ∧
            Streamlit.messages s' = [user_turn "hi"] ∧
            Streamlit.page s' = pg ++ [Streamlit.Error "Error: connection refused"]) ∧
  (∃ w', CLI.loop_body (always (Raise BOOM)) "hi" sample_cli sample_world
           = (CLI.Continue, sample_cli, w') ∧
         stdout w' = ["Error: connection refused"]).
Proof.
  destruct (submit_failure_is_reported (always (Raise BOOM)) "hi" BOOM) as [Hp Ht];
    [discriminate | reflexivity |].
  split.
  - destruct (Hp (sample_widgets false (Some "hi")) sample_script) as (s' & pg & H1 & H2 & H3);
      [reflexivity | discriminate | reflexivity | reflexivity |].
    exists s', pg. split; [exact H1 | split; [exact H2 | exact H3]].
  - destruct (Ht ChatbotConfig_init sample_env "hi" sample_cli sample_world)
      as (w' & H1 & H2);
      [vm_compute; reflexivity | reflexivity | discriminate | discriminate | reflexivity |].
    exists w'. split; [exact H1 | exact H2].
Defined.

(** C4 as the specification words it, on the page: a chat text of white
    space only would leave the transcript alone and send nothing.  The page
    tests the text for emptiness only; a single space is sent to the model. *)
Lemma page_blank_is_noop_fails :
  ¬ (∀ (invoke : Invoker) (inp : Streamlit.Widgets) (s : Streamlit.Script) (text : string),
       blank text = true →
       Streamlit.clear_button inp = false →
       Streamlit.api_key inp ≠ "" →
       Streamlit.chat_input inp = Some text →
       ∃ r s', Streamlit.main invoke None inp s = (r, s') ∧
         Streamlit.messages s' = Streamlit.messages s ∧
         calls (Streamlit.world s') = calls (Streamlit.world s)).
Proof.
  intros H.
  destruct (H (always (Ok "hello")) (sample_widgets false (Some " ")) sample_script " ")
    as (r & s' & Hrun & Hm & _); try done.
  vm_compute in Hrun. injection Hrun as <- <-. discriminate Hm.
Qed.

(** C4, amended: an empty chat text is a no-op on the page, and a line that is
    empty or holds white space only is a no-op in the terminal loop: the
    transcript is unchanged, nothing is sent to the model and no error is
    shown.  The page does not trim: it sends a text of white space only like
    any other non-empty text. *)
Theorem blank_input_is_noop (invoke : Invoker) :
  (∀ fault inp s,
     Streamlit.clear_button inp = false →
     Streamlit.chat_input inp = None ∨ Streamlit.chat_input inp = Some "" →
     ∃ r s', Streamlit.main invoke fault inp s = (r, s') ∧
       Streamlit.messages s' = Streamlit.messages s ∧
       calls (Streamlit.world s') = calls (Streamlit.world s) ∧
       errors_shown (Streamlit.page s') = errors_shown (Streamlit.page s)) ∧
  (∀ line self w,
     blank line = true →
     CLI.loop_body invoke line self w = (CLI.Continue, self, w)) ∧
  (∀ inp s text,
     Streamlit.clear_button inp = false → Streamlit.api_key inp ≠ "" →
     Streamlit.chat_input inp = Some text → text ≠ "" →
     ∃ r s', Streamlit.main invoke None inp s = (r, s') ∧
       calls (Streamlit.world s') =
         calls (Streamlit.world s) ++
         [request_of (page_chatbot inp) (Streamlit.messages s) text]).
Proof.
  split; [|split].
  - intros [e|] inp s Hc Hi.
    + eexists _, _. split; [reflexivity|]. done.
    + destruct (decide (Streamlit.api_key inp = "")) as [Hk|Hk].
      * destruct (main_no_key invoke inp s Hc Hk) as (s' & -> & Hm & Hw & Hp).
        eexists _, _. split; [reflexivity|].
        unfold Streamlit.messages. rewrite Hm, Hw. done.
      * rewrite main_ready by done.
        assert (Hf : truthy_opt (Streamlit.chat_input inp) = false).
        { apply truthy_opt_false. exact Hi. }
        rewrite Hf. eexists _, _. split; [reflexivity|].
        rewrite page_ready_messages, page_ready_world, page_ready_eq.
        cbn [Streamlit.page calls setenv].
        rewrite !errors_shown_app, errors_shown_history, !app_nil_r. done.
  - intros line self w Hb. apply loop_body_empty. by apply strip_blank.
  - intros inp s text Hc Hk Hi Ht.
    destruct (page_submits invoke inp s text Hc Hk Hi Ht) as (r & s' & H1 & H2 & _).
    by exists r, s'.
Qed.

Lemma blank_input_is_noop_witness :
  (∃ r s', Streamlit.main (always (Ok "hello")) None
             (sample_widgets false (Some "")) sample_script = (r, s') ∧
           Streamlit.messages s' = [] ∧ calls (Streamlit.world s') = []) ∧
  CLI.loop_body (always (Ok "hello")) ("   " +:+ nl) sample_cli sample_world
    = (CLI.Continue, sample_cli, sample_world) ∧
  (∃ r s', Streamlit.main (always (Ok "hello")) None
             (sample_widgets false (Some " ")) sample_script = (r, s') ∧
           length (calls (Streamlit.world s')) = 1).
Proof.
  destruct (blank_input_is_noop (always (Ok "hello"))) as (Hp & Ht & Hs).
  split; [|split].
  - destruct (Hp None (sample_widgets false (Some "")) sample_script)
      as (r & s' & H1 & H2 & H3 & _); [reflexivity | by right |].
    exists r, s'. split; [exact H1 | split; [exact H2 | exact H3]].
  - apply Ht. reflexivity.
  - destruct (Hs (sample_widgets false (Some " ")) sample_script " ")
      as (r & s' & H1 & H2); [reflexivity | discriminate | reflexivity | discriminate |].
    exists r, s'. split; [exact H1 | by rewrite H2].
Defined.

(** C7 as the specification words it, on the page: the text [clear] typed
    into the chat box would empty the transcript and send nothing.  The page
    knows no text commands; the word is sent to the model like any text. *)
Lemma page_clear_word_fails :
  ¬ (∀ (invoke : Invoker) (inp : Streamlit.Widgets) (s : Streamlit.Script) (text : string),
       lower (strip text) = "clear" →
       Streamlit.clear_button inp = false →
       Streamlit.api_key inp ≠ "" →
       Streamlit.chat_input inp = Some text →
       ∃ r s', Streamlit.main invoke None inp s = (r, s') ∧
         Streamlit.messages s' = [] ∧
         calls (Streamlit.world s') = calls (Streamlit.world s)).
Proof.
  intros H.
  destruct (H (always (Ok "hello")) (sample_widgets false (Some "clear")) sample_script "clear")
    as (r & s' & Hrun & Hm & _); try done.
  vm_compute in Hrun. injection Hrun as <- <-. discriminate Hm.
Qed.

(** C7, amended: the terminal loop knows the two reserved words whatever
    their case and surrounding white space: [clear] empties the history and
    sends nothing, [quit] ends the loop and sends nothing, and every other
    line that is not blank is sent to the model.  The page knows no reserved
    word: every non-empty chat text, [clear] and [quit] included, is sent to
    the model, and its Clear button empties the transcript and sends
    nothing. *)
Theorem reserved_commands (invoke : Invoker) :
  (∀ line self w,
     lower (strip line) = "clear" →
     ∃ w', CLI.loop_body invoke line self w = (CLI.Continue, CLI.set_chat_history [] self, w') ∧
           calls w' = calls w) ∧
  (∀ line self w,
     lower (strip line) = "quit" →
     ∃ w', CLI.loop_body invoke line self w = (CLI.Break, self, w') ∧
           calls w' = calls w) ∧
  (∀ cfg env line self w,
     AnthropicChatbot_init cfg env = Ok (CLI.chatbot self) →
     strip line ≠ "" → lower (strip line) ≠ "quit" → lower (strip line) ≠ "clear" →
     ∃ f self' w', CLI.loop_body invoke line self w = (f, self', w') ∧
       calls w' =
         calls w ++ [request_of (CLI.chatbot self) (CLI.chat_history self) (strip line)]) ∧
  (∀ inp s text,
     Streamlit.clear_button inp = false → Streamlit.api_key inp ≠ "" →
     Streamlit.chat_input inp = Some text → text ≠ "" →
     ∃ r s', Streamlit.main invoke None inp s = (r, s') ∧
       calls (Streamlit.world s') =
         calls (Streamlit.world s) ++
         [request_of (page_chatbot inp) (Streamlit.messages s) text]) ∧
  (∀ inp s,
     Streamlit.clear_button inp = true →
     ∃ s', Streamlit.main invoke None inp s = (Streamlit.Rerun, s') ∧
       Streamlit.messages s' = [] ∧
       calls (Streamlit.world s') = calls (Streamlit.world s)).
Proof.
  repeat split.
  - intros line self w H. rewrite loop_body_clear by done. by eexists.
  - intros line self w H. rewrite loop_body_quit by done. by eexists.
  - intros cfg env line self w. apply terminal_submits.
  - intros inp s text Hc Hk Hi Ht.
    destruct (page_submits invoke inp s text Hc Hk Hi Ht) as (r & s' & H1 & H2 & _).
    by exists r, s'.
  - intros inp s Hc.
    destruct (main_clear invoke inp s Hc) as (s' & H1 & H2 & H3 & _).
    exists s'. split; [exact H1|]. unfold Streamlit.messages. by rewrite H2.
Qed.

Lemma reserved_commands_witness :
  (∃ w', CLI.loop_body (always (Ok "hello")) " CLEAR " sample_cli sample_world
           = (CLI.Continue, CLI.set_chat_history [] sample_cli, w') ∧ calls w' = []) ∧
  (∃ w', CLI.loop_body (always (Ok "hello")) "Quit" sample_cli sample_world
           = (CLI.Break, sample_cli, w') ∧ calls w' = []) ∧
  (∃ f self' w', CLI.loop_body (always (Ok "hello")) "quit now" sample_cli sample_world
           = (f, self', w') ∧ length (calls w') = 1) ∧
  (∃ r s', Streamlit.main (always (Ok "hello")) None
             (sample_widgets false (Some "quit")) sample_script = (r, s') ∧
           length (calls (Streamlit.world s')) = 1) ∧
  (∃ s', Streamlit.main (always (Ok "hello")) None
           (sample_widgets true None) sample_script = (Streamlit.Rerun, s') ∧
         Streamlit.messages s' = []).
Proof.
  destruct (reserved_commands (always (Ok "hello"))) as (Hc & Hq & Hs & Hp & Hb).
  split; [|split; [|split; [|split]]].
  - destruct (Hc " CLEAR " sample_cli sample_world) as (w' & H1 & H2); [reflexivity|].
    exists w'. split; [exact H1 | exact H2].
  - destruct (Hq "Quit" sample_cli sample_world) as (w' & H1 & H2); [reflexivity|].
    exists w'. split; [exact H1 | exact H2].
  - destruct (Hs ChatbotConfig_init sample_env "quit now" sample_cli sample_world)
      as (f & self' & w' & H1 & H2);
      [vm_compute; reflexivity | discriminate | discriminate | discriminate |].
    exists f, self', w'. split; [exact H1 | by rewrite H2].
  - destruct (Hp (sample_widgets false (Some "quit")) sample_script "quit")
      as (r & s' & H1 & H2); [reflexivity | discriminate | reflexivity | discriminate |].
    exists r, s'. split; [exact H1 | by rewrite H2].
  - destruct (Hb (sample_widgets true None) sample_script) as (s' & H1 & H2 & _);
      [reflexivity|].
    exists s'. split; [exact H1 | exact H2].
Defined.

(** ** The terminal loop as a whole *)

Section TerminalLoop.
Import CLI.
Variable remote : Remote.

Lemma loop_frame stdin : ∀ self w,
  cli_config (loop remote stdin self w).1.2 = cli_config self ∧
  chatbot (loop remote stdin self w).1.2 = chatbot self ∧
  environ (loop remote stdin self w).2 = environ w.
Proof.
  induction stdin as [|line rest IH]; intros self w; [done|].
  cbn [loop]. cbv zeta.
  destruct (loop_body_cases (remote (calls (print INPUT_PROMPT w))) line self
              (print INPUT_PROMPT w)) as (f & self' & w' & -> & Hc & Hb & He & _).
  destruct f; cbn; [|done..].
  destruct (IH self' w') as (-> & -> & ->). done.
Qed.

Lemma list_pair_ind (P : list Turn → Prop) :
  P [] → (∀ x, P [x]) → (∀ x y l, P l → P (x :: y :: l)) → ∀ l, P l.
Proof.
  intros H0 H1 H2 l.
  enough (P l ∧ ∀ x, P (x :: l)) as [H _] by exact H.
  induction l as [|y l [IHl IHx]]; split; auto.
Qed.

Lemma alternates_app h u a :
  alternates h = true → alternates (h ++ [user_turn u; assistant_turn a]) = true.
Proof.
  induction h as [|x|x y l IH] using list_pair_ind; [done..|].
  cbn [alternates app]. intros H.
  apply andb_prop in H as [H1 H2]. rewrite H1. by apply IH.
Qed.

Lemma alternates_even h : alternates h = true → Nat.even (length h) = true.
Proof.
  induction h as [|x|x y l IH] using list_pair_ind; [done..|].
  cbn [alternates length Nat.even]. intros H.
  apply andb_prop in H as [_ H2]. by apply IH.
Qed.

Lemma histories_alternate stdin : ∀ self w,
  alternates (chat_history self) = true →
  Forall (λ h, alternates h = true) (histories remote stdin self w).
Proof.
  induction stdin as [|line rest IH]; intros self w Hinv; cbn [histories]; cbv zeta.
  - by constructor.
  - constructor; [exact Hinv|].
    destruct (loop_body_cases (remote (calls (print INPUT_PROMPT w))) line self
                (print INPUT_PROMPT w)) as (f & self' & w' & -> & _ & _ & _ & Hh).
    destruct f; [|by constructor..].
    apply IH.
    destruct Hh as [-> | [[-> _] | (response & r & _ & _ & _ & ->)]];
      [exact Hinv | done | by apply alternates_app].
Qed.

End TerminalLoop.

(** C6, the failing start: on a host where [import streamlit] raises, the
    import at the top of the module ends the process with that [ImportError];
    the block that would fall back to the terminal front end is not reached,
    whatever the rest of the host looks like. *)
Theorem missing_streamlit_ends_process
    (fault : option exn) (remote : CLI.Remote) (inp : Streamlit.Widgets)
    (stdin : list string) (s : Streamlit.Script) :
  Program.start {| Program.streamlit_importable := false; Program.runtime_fault := fault |}
    remote inp stdin s
  = Program.ImportCrash Program.NO_STREAMLIT.
Proof. reflexivity. Qed.

(** The fallback that does work: an [Exception] raised while the page is set
    up starts the terminal front end. *)
Lemma runtime_fault_falls_back e remote inp stdin s :
  is_Exception e = true →
  ∃ w, Program.start {| Program.streamlit_importable := true;
                        Program.runtime_fault := Some e |} remote inp stdin s
       = Program.start_cli remote stdin w ∧
       environ w = environ (Streamlit.world s) ∧ calls w = calls (Streamlit.world s).
Proof.
  intros He. unfold Program.start. cbn.
  destruct (is_ImportError e); [by eexists|]. rewrite He. by eexists.
Qed.

(** C8: clearing always succeeds and leaves an empty transcript; clearing
    again changes nothing; and the session is then the freshly made one, so
    whatever is submitted next is handled as the first submission of a fresh
    session with the same configuration.  In the terminal loop this holds
    after any run of the loop; on the page it holds for the Clear button,
    where a fresh session is one whose state has no transcript entry yet. *)
Theorem clear_gives_fresh_session (invoke : Invoker) :
  (∀ self w,
     ∃ w1 w2,
       CLI.loop_body invoke "clear" self w = (CLI.Continue, CLI.set_chat_history [] self, w1) ∧
       length (CLI.chat_history (CLI.set_chat_history [] self)) = 0 ∧
       CLI.loop_body invoke "clear" (CLI.set_chat_history [] self) w1
         = (CLI.Continue, CLI.set_chat_history [] self, w2)) ∧
  (∀ remote stdin cfg bot w line w0,
     let used := (CLI.loop remote stdin (fresh_session cfg bot) w).1.2 in
     CLI.set_chat_history [] used = fresh_session cfg bot ∧
     CLI.loop_body invoke line (CLI.set_chat_history [] used) w0
       = CLI.loop_body invoke line (fresh_session cfg bot) w0) ∧
  (∀ inp s,
     Streamlit.clear_button inp = true →
     ∃ s1 s2,
       Streamlit.main invoke None inp s = (Streamlit.Rerun, s1) ∧
       Streamlit.session_messages s1 = Some [] ∧
       length (Streamlit.messages s1) = 0 ∧
       Streamlit.main invoke None inp s1 = (Streamlit.Rerun, s2) ∧
       Streamlit.session_messages s2 = Streamlit.session_messages s1) ∧
  (∀ fault inp pg w,
     let cleared := {| Streamlit.session_messages := Some [];
                       Streamlit.page := pg; Streamlit.world := w |} in
     let fresh := {| Streamlit.session_messages := None;
                     Streamlit.page := pg; Streamlit.world := w |} in
     (Streamlit.main invoke fault inp cleared).1 = (Streamlit.main invoke fault inp fresh).1 ∧
     Streamlit.messages (Streamlit.main invoke fault inp cleared).2
       = Streamlit.messages (Streamlit.main invoke fault inp fresh).2 ∧
     Streamlit.page (Streamlit.main invoke fault inp cleared).2
       = Streamlit.page (Streamlit.main invoke fault inp fresh).2 ∧
     Streamlit.world (Streamlit.main invoke fault inp cleared).2
       = Streamlit.world (Streamlit.main invoke fault inp fresh).2).
Proof.
  split; [|split; [|split]].
  - intros self w. eexists _, _. split; [reflexivity|]. split; reflexivity.
  - intros remote stdin cfg bot w line w0 used.
    assert (E : CLI.set_chat_history [] used = fresh_session cfg bot).
    { destruct (loop_frame remote stdin (fresh_session cfg bot) w) as (Hc & Hb & _).
      unfold CLI.set_chat_history, fresh_session. subst used. by rewrite Hc, Hb. }
    split; [exact E | by rewrite E].
  - intros inp s Hc.
    destruct (main_clear invoke inp s Hc) as (s1 & H1 & H2 & _).
    destruct (main_clear invoke inp s1 Hc) as (s2 & H3 & H4 & _).
    exists s1, s2. repeat split; try done.
    + unfold Streamlit.messages. by rewrite H2.
    + by rewrite H2, H4.
  - intros [e|] inp pg w cleared fresh; [done|].
    unfold Streamlit.main. subst cleared fresh.
    destruct (Streamlit.clear_button inp); [by destruct (truthy (Streamlit.api_key inp))|].
    destruct (truthy (Streamlit.api_key inp)); [|done].
    cbn [Streamlit.show Streamlit.set_world Streamlit.world Streamlit.session_messages].
    destruct (AnthropicChatbot_init _ _) as [bot|e]; [|by unfold Streamlit.init_failed; destruct (is_Exception e)].
    done.
Qed.

Lemma clear_gives_fresh_session_witness :
  ∃ s1 s2,
    Streamlit.main (always (Ok "hello")) None (sample_widgets true None)
      {| Streamlit.session_messages := Some [user_turn "hi"; assistant_turn "hello"];
         Streamlit.page := []; Streamlit.world := sample_world |}
    = (Streamlit.Rerun, s1) ∧
    Streamlit.session_messages s1 = Some [] ∧
    Streamlit.main (always (Ok "hello")) None (sample_widgets true None) s1
    = (Streamlit.Rerun, s2) ∧
    Streamlit.session_messages s2 = Some [].
Proof.
  destruct (clear_gives_fresh_session (always (Ok "hello"))) as (_ & _ & Hp & _).
  destruct (Hp (sample_widgets true None)
              {| Streamlit.session_messages := Some [user_turn "hi"; assistant_turn "hello"];
                 Streamlit.page := []; Streamlit.world := sample_world |})
    as (s1 & s2 & H1 & H2 & _ & H3 & H4); [reflexivity|].
  exists s1, s2. rewrite H2 in H4. auto.
Defined.

Section PageFrame.
Import Streamlit.
Variable invoke : Invoker.

Lemma chat_block_frame bot text s :
  environ (world (chat_block invoke bot text s).2) = environ (world s) ∧
  ∃ sent, calls (world (chat_block invoke bot text s).2) = calls (world s) ++ sent ∧
          Forall (λ r, req_llm r = chain_llm (chain bot)) sent.
Proof.
  unfold chat_block. cbv zeta.
  unfold get_response, chain_invoke, chain_request.
  destruct (format_messages _ _) as [ms|e]; cbn [bind].
  - destruct (invoke _) as [response|e]; [|destruct (is_Exception e)];
      (split; [reflexivity|]; eexists [_]; split; [reflexivity | by constructor]).
  - destruct (is_Exception e); (split; [reflexivity|]); exists []; by rewrite app_nil_r.
Qed.

Lemma init_failed_world e s : world (init_failed e s).2 = world s.
Proof. unfold init_failed. by destruct (is_Exception e). Qed.

(** The environment after a run depends on the key field alone. *)
Lemma main_environ fault inp s :
  environ (world (main invoke fault inp s).2) =
  match fault with
  | Some _ => environ (world s)
  | None =>
      if truthy (api_key inp)
      then <["ANTHROPIC_API_KEY" := api_key inp]> (environ (world s))
      else environ (world s)
  end.
Proof.
  destruct fault as [e|]; [reflexivity|].
  unfold main.
  destruct (clear_button inp); [by destruct (truthy (api_key inp))|].
  destruct (truthy (api_key inp)); [|reflexivity].
  destruct (AnthropicChatbot_init _ _) as [bot|e]; [|by rewrite init_failed_world].
  destruct (truthy_opt (chat_input inp)).
  - rewrite chat_block_outer.
    match goal with
    | |- context [chat_block invoke ?b ?t ?st] =>
        destruct (chat_block_frame b t st) as [-> _]
    end.
    rewrite fold_show. by destruct s as [[m|] pg w].
  - cbn [snd]. rewrite fold_show. by destruct s as [[m|] pg w].
Qed.

End PageFrame.

(** C9: neither a submit nor a clear changes the session configuration.  In
    the terminal loop every pass, and so every run of the loop, returns the
    configuration object and the chatbot (model, temperature, token limit,
    system prompt, key) it was given, leaves the environment alone, and sends
    only requests that carry the chatbot's model settings; only the history
    changes.  On the page the chat block leaves the environment alone, and a
    run with a submit or a clear leaves the environment exactly as the same
    run without them does. *)
Theorem configuration_is_read_only (invoke : Invoker) :
  (∀ line self w,
     CLI.cli_config (CLI.loop_body invoke line self w).1.2 = CLI.cli_config self ∧
     CLI.chatbot (CLI.loop_body invoke line self w).1.2 = CLI.chatbot self ∧
     environ (CLI.loop_body invoke line self w).2 = environ w ∧
     ∃ sent, calls (CLI.loop_body invoke line self w).2 = calls w ++ sent ∧
             Forall (λ r, req_llm r = chain_llm (chain (CLI.chatbot self))) sent) ∧
  (∀ remote stdin self w,
     CLI.cli_config (CLI.loop remote stdin self w).1.2 = CLI.cli_config self ∧
     CLI.chatbot (CLI.loop remote stdin self w).1.2 = CLI.chatbot self ∧
     environ (CLI.loop remote stdin self w).2 = environ w) ∧
  (∀ bot text s,
     environ (Streamlit.world (Streamlit.chat_block invoke bot text s).2)
       = environ (Streamlit.world s) ∧
     ∃ sent, calls (Streamlit.world (Streamlit.chat_block invoke bot text s).2)
               = calls (Streamlit.world s) ++ sent ∧
             Forall (λ r, req_llm r = chain_llm (chain bot)) sent) ∧
  (∀ fault inp s,
     environ (Streamlit.world (Streamlit.main invoke fault inp s).2)
       = environ (Streamlit.world (Streamlit.main invoke fault (Streamlit.after_rerun inp) s).2)).
Proof.
  split; [|split; [|split]].
  - intros line self w. unfold CLI.loop_body. cbv zeta.
    destruct (String.eqb _ "quit");
      [repeat split; exists []; by rewrite app_nil_r|].
    destruct (String.eqb _ "clear");
      [repeat split; exists []; by rewrite app_nil_r|].
    destruct (negb _); [repeat split; exists []; by rewrite app_nil_r|].
    unfold get_response, chain_invoke, chain_request.
    destruct (format_messages _ _) as [ms|e]; cbn [bind].
    + destruct (invoke _) as [response|e]; [|destruct (is_Exception e)];
        (repeat split; eexists [_]; split; [reflexivity | by constructor]).
    + destruct (is_Exception e); repeat split; exists []; by rewrite app_nil_r.
  - intros remote stdin self w. apply loop_frame.
  - intros bot text s. apply chat_block_frame.
  - intros fault inp s. by rewrite !main_environ.
Qed.

(** C10: in the terminal loop a pass leaves the history as it was, empties
    it, or appends a user turn and an assistant turn together after a model
    call that succeeded; so every pass of the loop starts with a history of
    even length that alternates user, assistant from its first turn on (or is
    empty). *)
Theorem terminal_history_alternates (remote : CLI.Remote) (stdin : list string)
    (cfg : ChatbotConfig) (bot : AnthropicChatbot) (w : World) :
  Forall (λ h, alternates h = true ∧ Nat.even (length h) = true)
    (CLI.histories remote stdin (fresh_session cfg bot) w) ∧
  (∀ invoke line self w0,
     let self' := (CLI.loop_body invoke line self w0).1.2 in
     let w' := (CLI.loop_body invoke line self w0).2 in
     CLI.chat_history self' = CLI.chat_history self ∨
     CLI.chat_history self' = [] ∧ calls w' = calls w0 ∨
     ∃ response r,
       invoke r = Ok response ∧ calls w' = calls w0 ++ [r] ∧
       CLI.chat_history self' =
         CLI.chat_history self ++ [user_turn (strip line); assistant_turn response]).
Proof.
  split.
  - eapply Forall_impl; [by apply histories_alternate|].
    intros h Hh. split; [exact Hh | by apply alternates_even].
  - intros invoke line self w0.
    destruct (loop_body_cases invoke line self w0) as (f & self' & w' & -> & _ & _ & _ & Hh).
    cbn. destruct Hh as [H | [H | (response & r & H1 & H2 & _ & H3)]]; auto.
    right; right. by exists response, r.
Qed.

Example histories_ex :
  CLI.histories (λ _, always (Ok "hello")) ["hi"; "clear"; "  "; "Hey"; "quit"; "x"]
    sample_cli sample_world
  = [ []; [user_turn "hi"; assistant_turn "hello"]; []; [];
      [user_turn "Hey"; assistant_turn "hello"] ].
Proof. vm_compute. reflexivity. Qed.

Example run_ex :
  (CLI.run (λ _, always (Raise BOOM)) ["hi"] sample_cli sample_world).1
  = (CLI.Uncaught (Exn EOFError "EOF when reading a line"), sample_cli).
Proof. vm_compute. reflexivity. Qed.


(** * Further properties of the code *)

(** ** Trimming and the blank test *)

Lemma rstrip_empty s : rstrip s = "" → blank s = true.
Proof.
  induction s as [|c s IH]; cbn; [done|].
  destruct (rstrip s) as [|c' r]; [|discriminate].
  destruct (isspace c); [intros _; by apply IH | discriminate].
Qed.

Lemma blank_lstrip s : blank (lstrip s) = true → blank s = true.
Proof.
  induction s as [|c s IH]; cbn; [done|].
  destruct (isspace c) eqn:Hc; cbn; [exact IH|]. by rewrite Hc.
Qed.

Lemma strip_empty_iff s : strip s = "" ↔ blank s = true.
Proof.
  split; [|apply strip_blank].
  intros H. apply blank_lstrip. by apply rstrip_empty.
Qed.

(** ** More on the terminal loop *)

Section TerminalMore.
Import CLI.

(** One pass with a chatbot that the constructor built, in full. *)
Lemma loop_body_spec invoke cfg env line self w :
  AnthropicChatbot_init cfg env = Ok (chatbot self) →
  ∃ f self' w' sent,
    loop_body invoke line self w = (f, self', w') ∧
    calls w' = calls w ++ sent ∧
    cli_config self' = cli_config self ∧ chatbot self' = chatbot self ∧
    sent = (if blank line || String.eqb (lower (strip line)) "quit"
               || String.eqb (lower (strip line)) "clear"
            then []
            else [request_of (chatbot self) (chat_history self) (strip line)]) ∧
    (alternates (chat_history self) = true → alternates (chat_history self') = true) ∧
    (f = Break → lower (strip line) = "quit") ∧
    (∀ e, f = Propagate e → ∃ r, invoke r = Raise e ∧ is_Exception e = false).
Proof.
  intros Hb.
  destruct (String.eqb_spec (lower (strip line)) "quit") as [Hq|Hq].
  { rewrite loop_body_quit by done. eexists _, _, _, []. rewrite app_nil_r, orb_true_r.
    repeat split; try done. }
  destruct (String.eqb_spec (lower (strip line)) "clear") as [Hc|Hc].
  { rewrite loop_body_clear by done. eexists _, _, _, []. rewrite app_nil_r, orb_true_r.
    repeat split; try done. }
  rewrite !orb_false_r.
  destruct (blank line) eqn:Hbl.
  { rewrite loop_body_empty by (by apply strip_blank).
    eexists _, _, _, []. rewrite app_nil_r. repeat split; try done. }
  assert (Hne : strip line ≠ "").
  { intros E. apply strip_empty_iff in E. congruence. }
  rewrite (loop_body_submit _ _ _ _ _ _ Hb Hne Hq Hc). cbv zeta.
  destruct (invoke _) as [response|e] eqn:Hr; [|destruct (is_Exception e) eqn:He];
    eexists _, _, _, [_]; (split; [reflexivity|]); repeat split; try done.
  - intros Ha. cbn. by apply alternates_app.
  - intros e' [= <-]. eauto.
Qed.

Lemma loop_quit_ignores_rest (remote : Remote) pre q post : ∀ self w,
  lower (strip q) = "quit" →
  loop remote (pre ++ q :: post) self w = loop remote (pre ++ [q]) self w.
Proof.
  induction pre as [|line pre IH]; intros self w Hq; cbn [app loop]; cbv zeta.
  - by rewrite !loop_body_quit.
  - destruct (loop_body _ line self _) as [[[| |e] self'] w']; [|done..].
    by apply IH.
Qed.

End TerminalMore.

(** X1.  The terminal loop sends a line to the model exactly when the line is
    neither blank nor, once trimmed and lowered, one of the two reserved
    words; it then sends one request, built from the chatbot, the history so
    far and the trimmed line.  In every other case it sends nothing. *)
Theorem terminal_sends_iff (invoke : Invoker) (cfg : ChatbotConfig) (env : Environ)
    (line : string) (self : CLI.CLIChatbot) (w : World) :
  AnthropicChatbot_init cfg env = Ok (CLI.chatbot self) →
  calls (CLI.loop_body invoke line self w).2 =
  calls w ++
  (if blank line || String.eqb (lower (strip line)) "quit"
      || String.eqb (lower (strip line)) "clear"
   then []
   else [request_of (CLI.chatbot self) (CLI.chat_history self) (strip line)]).
Proof.
  intros Hb.
  destruct (loop_body_spec invoke cfg env line self w Hb)
    as (f & self' & w' & sent & -> & Hc & _ & _ & -> & _).
  exact Hc.
Qed.

Lemma terminal_sends_iff_witness :
  calls (CLI.loop_body (always (Raise BOOM)) " Hello? " sample_cli sample_world).2
  = [request_of sample_bot [] "Hello?"] ∧
  calls (CLI.loop_body (always (Raise BOOM)) " QUIT " sample_cli sample_world).2 = [].
Proof.
  split.
  - apply (terminal_sends_iff (always (Raise BOOM)) ChatbotConfig_init sample_env
             " Hello? " sample_cli sample_world).
    vm_compute. reflexivity.
  - apply (terminal_sends_iff (always (Raise BOOM)) ChatbotConfig_init sample_env
             " QUIT " sample_cli sample_world).
    vm_compute. reflexivity.
Defined.

(** X2.  The first [quit] ends the session: the lines that follow it are
    never read, so they change neither the result, nor the final state, nor
    what was printed or sent. *)
Theorem quit_ignores_later_lines (remote : CLI.Remote) (pre post : list string)
    (q : string) (self : CLI.CLIChatbot) (w : World) :
  lower (strip q) = "quit" →
  CLI.run remote (pre ++ q :: post) self w = CLI.run remote (pre ++ [q]) self w.
Proof. intros Hq. unfold CLI.run. by apply loop_quit_ignores_rest. Qed.

Lemma quit_ignores_later_lines_witness :
  CLI.run (λ _, always (Ok "hello")) (["hi"] ++ "Quit" :: ["more"; "clear"])
    sample_cli sample_world
  = CLI.run (λ _, always (Ok "hello")) (["hi"] ++ ["Quit"]) sample_cli sample_world.
Proof.
  apply (quit_ignores_later_lines (λ _, always (Ok "hello")) ["hi"] ["more"; "clear"]
           "Quit" sample_cli sample_world).
  reflexivity.
Defined.

(** X3.  [run] returns normally only through [quit]: if it finished, some
    input line was the reserved word. *)
Theorem finished_only_by_quit (remote : CLI.Remote) (stdin : list string)
    (cfg : ChatbotConfig) (env : Environ) (self : CLI.CLIChatbot) (w : World) :
  AnthropicChatbot_init cfg env = Ok (CLI.chatbot self) →
  (CLI.run remote stdin self w).1.1 = CLI.Finished →
  ∃ line, line ∈ stdin ∧ lower (strip line) = "quit".
Proof.
  intros Hb. unfold CLI.run.
  generalize (print "--------------------------------------------------"
    (print "Type 'quit' to exit, 'clear' to clear history"
       (print "🤖 LangChain Anthropic Chatbot" w))).
  clear w. revert self Hb.
  induction stdin as [|line rest IH]; intros self Hb w; cbn [CLI.loop]; cbv zeta; [done|].
  destruct (loop_body_spec (remote (calls (print CLI.INPUT_PROMPT w))) cfg env line self
              (print CLI.INPUT_PROMPT w) Hb)
    as (f & self' & w' & sent & -> & _ & _ & Hbot & _ & _ & Hbr & _).
  destruct f as [| |e]; cbn.
  - intros Hf. destruct (IH self') with (w := w') as (l & Hl & Hq);
      [by rewrite Hbot | exact Hf |].
    exists l. split; [by right | exact Hq].
  - intros _. exists line. split; [by left | by apply Hbr].
  - discriminate.
Qed.

Lemma finished_only_by_quit_witness :
  ∃ line, line ∈ ["hi"; " quit"] ∧ lower (strip line) = "quit".
Proof.
  apply (finished_only_by_quit (λ _, always (Ok "hello")) ["hi"; " quit"]
           ChatbotConfig_init sample_env sample_cli sample_world).
  - vm_compute. reflexivity.
  - vm_compute. reflexivity.
Defined.

(** X4.  When the input ends before any [quit], [run] does not return: the
    [EOFError] of [input] leaves it uncaught, provided the model failed only
    with ordinary exceptions on the way. *)
Theorem eof_without_quit (remote : CLI.Remote) (stdin : list string)
    (cfg : ChatbotConfig) (env : Environ) (self : CLI.CLIChatbot) (w : World) :
  AnthropicChatbot_init cfg env = Ok (CLI.chatbot self) →
  raises_only_Exception remote →
  Forall (λ line, lower (strip line) ≠ "quit") stdin →
  (CLI.run remote stdin self w).1.1 = CLI.Uncaught EOF_ERROR.
Proof.
  intros Hb Hr. unfold CLI.run.
  generalize (print "--------------------------------------------------"
    (print "Type 'quit' to exit, 'clear' to clear history"
       (print "🤖 LangChain Anthropic Chatbot" w))).
  clear w. revert self Hb.
  induction stdin as [|line rest IH]; intros self Hb w Hq; cbn [CLI.loop]; cbv zeta; [done|].
  apply Forall_cons in Hq as [Hq Hrest].
  destruct (loop_body_spec (remote (calls (print CLI.INPUT_PROMPT w))) cfg env line self
              (print CLI.INPUT_PROMPT w) Hb)
    as (f & self' & w' & sent & -> & _ & _ & Hbot & _ & _ & Hbr & Hpr).
  destruct f as [| |e]; cbn.
  - apply IH; [by rewrite Hbot | exact Hrest].
  - by destruct Hq; apply Hbr.
  - destruct (Hpr e eq_refl) as (r & Hraise & He).
    apply Hr in Hraise. congruence.
Qed.

Lemma eof_without_quit_witness :
  (CLI.run (λ _, always (Raise BOOM)) ["hi"; "clear"; ""] sample_cli sample_world).1.1
  = CLI.Uncaught EOF_ERROR.
Proof.
  apply (eof_without_quit (λ _, always (Raise BOOM)) ["hi"; "clear"; ""]
           ChatbotConfig_init sample_env sample_cli sample_world).
  - vm_compute. reflexivity.
  - intros seen r e H. injection H as <-. reflexivity.
  - repeat constructor; discriminate.
Defined.


(** ** What the terminal session sends *)

Lemma human_first_history h t :
  alternates h = true → human_first (convert_history h ++ [HumanMessage t]) = true.
Proof.
  unfold convert_history.
  induction h as [|x|x y l IH] using list_pair_ind; [done..|].
  cbn [alternates map app]. intros H.
  apply andb_prop in H as [H Hl]. apply andb_prop in H as [Hx Hy].
  rewrite Hx. apply String.eqb_eq in Hy. rewrite Hy. cbn. by apply IH.
Qed.

Lemma loop_sent (remote : CLI.Remote) cfg env bot stdin : ∀ self w,
  AnthropicChatbot_init cfg env = Ok bot →
  CLI.chatbot self = bot →
  alternates (CLI.chat_history self) = true →
  ∃ sent,
    calls (CLI.loop remote stdin self w).2 = calls w ++ sent ∧
    (length sent ≤ length stdin)%nat ∧
    Forall (λ r, well_formed_request r = true ∧ req_llm r = llm bot) sent.
Proof.
  intros self w Hb. revert self w.
  induction stdin as [|line rest IH]; intros self w Hs Ha; cbn [CLI.loop]; cbv zeta.
  { exists []. by rewrite app_nil_r. }
  assert (Hb' : AnthropicChatbot_init cfg env = Ok (CLI.chatbot self)) by by rewrite Hs.
  destruct (loop_body_spec (remote (calls (print CLI.INPUT_PROMPT w))) cfg env line self
              (print CLI.INPUT_PROMPT w) Hb')
    as (f & self' & w' & sent & -> & Hc & _ & Hbot & Hsent & Halt & _).
  assert (Hwf : (length sent ≤ 1)%nat ∧
            Forall (λ r, well_formed_request r = true ∧ req_llm r = llm bot) sent).
  { rewrite Hsent. destruct (_ || _ || _); [by split; [cbn; lia | constructor]|].
    split; [done|]. constructor; [|constructor]. rewrite Hs. split; [|done].
    unfold well_formed_request, request_of. cbn. by apply human_first_history. }
  destruct Hwf as [Hlen Hwf]. cbn [print calls] in Hc.
  destruct f as [| |e]; cbn [fst snd].
  - destruct (IH self' w') as (more & Hm & Hl & Hf); [congruence | by apply Halt |].
    exists (sent ++ more). rewrite Hm, Hc, <- app_assoc. split; [done|]. split.
    + rewrite length_app. cbn [length]. lia.
    + by apply Forall_app.
  - exists sent. split; [exact Hc|]. split; [cbn [length]; lia | exact Hwf].
  - exists sent. split; [exact Hc|]. split; [cbn [length]; lia | exact Hwf].
Qed.

(** X5.  A terminal session started by the constructor sends at most one
    request per input line, and every request it sends opens with the system
    message, goes on with human and AI messages in turn, ends with the human
    message of the line just typed, and carries the model settings and key the
    chatbot was built with. *)
Theorem terminal_requests_well_formed (remote : CLI.Remote)
    (env : Environ) (self : CLI.CLIChatbot) (stdin : list string) (w : World) :
  CLI.CLIChatbot_init env = Ok self →
  ∃ sent,
    calls (CLI.run remote stdin self w).2 = calls w ++ sent ∧
    (length sent ≤ length stdin)%nat ∧
    Forall (λ r, well_formed_request r = true ∧ req_llm r = llm (CLI.chatbot self) ∧
                 getenv env "ANTHROPIC_API_KEY" = Some (anthropic_api_key (req_llm r))) sent.
Proof.
  intros Hinit. unfold CLI.CLIChatbot_init in Hinit.
  destruct (AnthropicChatbot_init ChatbotConfig_init env) as [bot|e] eqn:Hb; [|done].
  cbn in Hinit. injection Hinit as <-.
  unfold CLI.run.
  destruct (loop_sent remote ChatbotConfig_init env bot stdin
              {| CLI.cli_config := ChatbotConfig_init; CLI.chatbot := bot;
                 CLI.chat_history := [] |}
              (print "--------------------------------------------------"
                 (print "Type 'quit' to exit, 'clear' to clear history"
                    (print "🤖 LangChain Anthropic Chatbot" w))) Hb eq_refl eq_refl)
    as (sent & Hc & Hl & Hf).
  exists sent. split; [exact Hc|]. split; [exact Hl|].
  eapply Forall_impl; [exact Hf|]. cbn. intros r [Hw Hr]. split; [exact Hw|].
  split; [exact Hr|]. rewrite Hr.
  unfold AnthropicChatbot_init, setup_llm in Hb. cbv zeta in Hb.
  destruct (getenv env "ANTHROPIC_API_KEY") as [k|]; [|done].
  destruct (truthy_opt (Some k)); [|done]. cbn in Hb. by injection Hb as <-.
Qed.

Lemma terminal_requests_well_formed_witness :
  ∃ sent,
    calls (CLI.run (λ _, always (Ok "hello")) ["hi"; "  "; "more"; "quit"]
             sample_cli sample_world).2 = sent ∧
    (length sent ≤ 4)%nat ∧
    Forall (λ r, well_formed_request r = true) sent.
Proof.
  destruct (terminal_requests_well_formed (λ _, always (Ok "hello"))
              sample_env sample_cli ["hi"; "  "; "more"; "quit"] sample_world)
    as (sent & Hc & Hl & Hf); [vm_compute; reflexivity|].
  exists sent. split; [exact Hc|]. split; [exact Hl|].
  eapply Forall_impl; [exact Hf|]. by intros r [Hw _].
Defined.

(** ** Prompt assembly for any history *)

(** X6.  Whatever roles the history carries, the assembled prompt holds
    exactly one system message, in first place: every turn becomes a human
    message if its role is the string user and an AI message otherwise, its
    content kept, in the order of the history, and the new text comes last. *)
Theorem single_system_message (cfg : ChatbotConfig) (h : list Turn) (t : string) :
  ∃ ms,
    assemble cfg h t = Ok (SystemMessage (system_prompt cfg) :: ms ++ [HumanMessage t]) ∧
    Forall (λ m, message_role m ≠ "system") (ms ++ [HumanMessage t]) ∧
    Forall2 (λ x m, m = if String.eqb (role x) "user"
                        then HumanMessage (content x) else AIMessage (content x)) h ms ∧
    map message_content ms = map content h.
Proof.
  exists (convert_history h). split; [apply assemble_eq|]. split; [|split].
  - apply Forall_app. split; [|by repeat constructor].
    unfold convert_history. induction h as [|x h IH]; cbn [map]; constructor; [|exact IH].
    by destruct (String.eqb (role x) "user").
  - unfold convert_history. induction h as [|x h IH]; cbn [map]; by constructor.
  - apply convert_history_content.
Qed.


(** ** More on the page *)

Lemma human_first_two_humans ms t1 t2 :
  human_first (ms ++ [HumanMessage t1; HumanMessage t2]) = false.
Proof.
  enough (H : human_first (ms ++ [HumanMessage t1; HumanMessage t2]) = false ∧
              ∀ m, human_first (m :: ms ++ [HumanMessage t1; HumanMessage t2]) = false)
    by apply H.
  induction ms as [|y ms [IH1 IH2]]; split.
  - done.
  - by intros [].
  - apply IH2.
  - intros [c|c|c]; try done. cbn [app human_first]. by destruct y.
Qed.

(** X7.  On the page a failed submit leaves its user turn in the transcript,
    so the next submit replays it: the second request carries the failed text
    and the new text as two human messages in a row, and is therefore not of
    the alternating form that every request of the terminal loop has. *)
Theorem page_resubmit_after_failure (invoke : Invoker) (inp1 inp2 : Streamlit.Widgets)
    (s : Streamlit.Script) (t1 t2 : string) (e : exn) :
  Streamlit.clear_button inp1 = false → Streamlit.api_key inp1 ≠ "" →
  Streamlit.chat_input inp1 = Some t1 → t1 ≠ "" →
  Streamlit.clear_button inp2 = false → Streamlit.api_key inp2 ≠ "" →
  Streamlit.chat_input inp2 = Some t2 → t2 ≠ "" →
  is_Exception e = true →
  invoke (request_of (page_chatbot inp1) (Streamlit.messages s) t1) = Raise e →
  ∃ r2,
    calls (Streamlit.world
             (Streamlit.main invoke None inp2 (Streamlit.main invoke None inp1 s).2).2)
    = calls (Streamlit.world s) ++
      [request_of (page_chatbot inp1) (Streamlit.messages s) t1; r2] ∧
    req_messages r2 =
      SystemMessage (Streamlit.system_prompt_area inp2) ::
      convert_history (Streamlit.messages s) ++ [HumanMessage t1; HumanMessage t2] ∧
    well_formed_request r2 = false.
Proof.
  intros Hc1 Hk1 Hi1 Ht1 Hc2 Hk2 Hi2 Ht2 He Hr.
  rewrite (main_submit invoke inp1 s t1 Hc1 Hk1 Hi1 Ht1). cbv zeta. rewrite Hr, He.
  cbn [snd].
  match goal with
  | |- context [Streamlit.main invoke None inp2 ?st] => remember st as s1 eqn:Hs1
  end.
  assert (Hm1 : Streamlit.messages s1 = Streamlit.messages s ++ [user_turn t1])
    by (by rewrite Hs1).
  assert (Hcalls1 : calls (Streamlit.world s1) = calls (Streamlit.world s) ++
            [request_of (page_chatbot inp1) (Streamlit.messages s) t1])
    by (by rewrite Hs1).
  clear Hs1.
  destruct (page_submits invoke inp2 s1 t2 Hc2 Hk2 Hi2 Ht2) as (r & s' & -> & Hcalls & _).
  cbn [snd]. rewrite Hcalls, Hcalls1, Hm1, <- app_assoc.
  eexists. split; [reflexivity|].
  assert (Hm : convert_history (Streamlit.messages s ++ [user_turn t1]) ++ [HumanMessage t2]
               = convert_history (Streamlit.messages s) ++ [HumanMessage t1; HumanMessage t2]).
  { unfold convert_history. rewrite map_app, <- app_assoc. reflexivity. }
  split.
  - cbn. by rewrite Hm.
  - unfold well_formed_request. cbn [request_of req_messages]. rewrite Hm.
    apply human_first_two_humans.
Qed.

Lemma page_resubmit_after_failure_witness :
  ∃ r2,
    calls (Streamlit.world
             (Streamlit.main (always (Raise BOOM)) None (sample_widgets false (Some "again"))
                (Streamlit.main (always (Raise BOOM)) None
                   (sample_widgets false (Some "hi")) sample_script).2).2)
    = [request_of (page_chatbot (sample_widgets false (Some "hi"))) [] "hi"; r2] ∧
    req_messages r2 =
      [SystemMessage "Be brief."; HumanMessage "hi"; HumanMessage "again"].
Proof.
  destruct (page_resubmit_after_failure (always (Raise BOOM))
              (sample_widgets false (Some "hi")) (sample_widgets false (Some "again"))
              sample_script "hi" "again" BOOM) as (r2 & H1 & H2 & _);
    try reflexivity; try discriminate.
  exists r2. split; [exact H1 | exact H2].
Defined.

(** X8.  With the key field empty and the Clear button not pressed, a run of
    the page builds no chatbot, even when the environment already holds a key:
    it draws the headings, the warning and the hint, sends nothing, shows no
    chat turn, and leaves session state and environment as they were; a text
    in the chat box is dropped. *)
Theorem page_without_key_field (invoke : Invoker) (inp : Streamlit.Widgets)
    (s : Streamlit.Script) :
  Streamlit.clear_button inp = false → Streamlit.api_key inp = "" →
  Streamlit.main invoke None inp s =
  (Streamlit.Done,
   {| Streamlit.session_messages := Streamlit.session_messages s;
      Streamlit.page :=
        Streamlit.page s ++
        [Streamlit.Title "🤖 LangChain Anthropic Chatbot";
         Streamlit.Markdown "A chatbot powered by LangChain and Anthropic's Claude API";
         Streamlit.Header "Configuration";
         Streamlit.Warning
           "Please enter your Anthropic API key in the sidebar to start chatting.";
         Streamlit.Info Streamlit.GET_STARTED];
      Streamlit.world := Streamlit.world s |}).
Proof.
  intros Hc Hk. unfold Streamlit.main. rewrite Hc, Hk.
  cbn [truthy]. unfold Streamlit.show. cbn [Streamlit.page Streamlit.world
    Streamlit.session_messages].
  by rewrite <- !app_assoc.
Qed.

Lemma page_without_key_field_witness :
  ∃ s', Streamlit.main (always (Ok "hello")) None
          {| Streamlit.api_key := ""; Streamlit.model_choice := "claude-3-opus-20240229";
             Streamlit.temperature_slider := 0.5%float; Streamlit.max_tokens_input := 100;
             Streamlit.system_prompt_area := ""; Streamlit.clear_button := false;
             Streamlit.chat_input := Some "hi" |}
          {| Streamlit.session_messages := None; Streamlit.page := [];
             Streamlit.world := sample_world |}
        = (Streamlit.Done, s') ∧
        calls (Streamlit.world s') = [] ∧ Streamlit.session_messages s' = None.
Proof.
  eexists. split.
  - apply page_without_key_field; reflexivity.
  - split; reflexivity.
Defined.

(** X9.  A key typed into the page is written to the process environment and
    stays there: after any run with a non-empty key field the environment maps
    [ANTHROPIC_API_KEY] to the typed key, whatever it held before, so a
    terminal chatbot constructed afterwards in the same process succeeds and
    uses that key. *)
Theorem page_key_reaches_environment (invoke : Invoker) (inp : Streamlit.Widgets)
    (s : Streamlit.Script) :
  Streamlit.api_key inp ≠ "" →
  getenv (environ (Streamlit.world (Streamlit.main invoke None inp s).2))
    "ANTHROPIC_API_KEY" = Some (Streamlit.api_key inp) ∧
  ∃ bot, CLI.CLIChatbot_init
           (environ (Streamlit.world (Streamlit.main invoke None inp s).2))
         = Ok (fresh_session ChatbotConfig_init bot) ∧
         anthropic_api_key (llm bot) = Streamlit.api_key inp.
Proof.
  intros Hk. rewrite main_environ.
  pose proof Hk as Ht. apply truthy_true in Ht. rewrite Ht.
  assert (Hg : getenv (<["ANTHROPIC_API_KEY" := Streamlit.api_key inp]>
                         (environ (Streamlit.world s))) "ANTHROPIC_API_KEY"
               = Some (Streamlit.api_key inp)) by apply lookup_insert_eq.
  split; [exact Hg|].
  unfold CLI.CLIChatbot_init, AnthropicChatbot_init.
  rewrite (setup_llm_ok _ _ _ Hg Hk). cbn. by eexists.
Qed.

Lemma page_key_reaches_environment_witness :
  getenv (environ (Streamlit.world
            (Streamlit.main (always (Ok "hello")) None (sample_widgets true None)
               {| Streamlit.session_messages := None; Streamlit.page := [];
                  Streamlit.world := {| environ := {[ "ANTHROPIC_API_KEY" := "old" ]};
                                        stdout := []; calls := [] |} |}).2))
    "ANTHROPIC_API_KEY" = Some "sk-test".
Proof.
  apply (page_key_reaches_environment (always (Ok "hello")) (sample_widgets true None)).
  discriminate.
Defined.


Section PageMore.
Import Streamlit.
Variable invoke : Invoker.

(** A run of the page in the three cases its tests distinguish. *)
Lemma main_cases inp s :
  (clear_button inp = true ∧
   ∃ s', main invoke None inp s = (Rerun, s') ∧
         errors_shown (page s') = errors_shown (page s)) ∨
  (clear_button inp = false ∧
   ∃ s', main invoke None inp s = (Done, s') ∧
         errors_shown (page s') = errors_shown (page s)) ∨
  (clear_button inp = false ∧
   ∃ r e s', invoke r = Raise e ∧
     main invoke None inp s = (if is_Exception e then Done else Raised e, s') ∧
     errors_shown (page s') =
       errors_shown (page s) ++ (if is_Exception e then ["Error: " +:+ str e] else [])).
Proof.
  destruct (clear_button inp) eqn:Hc.
  { left. split; [done|].
    destruct (main_clear invoke inp s Hc) as (s' & H1 & _ & _ & H2). by exists s'. }
  right.
  destruct (decide (api_key inp = "")) as [Hk|Hk].
  { left. split; [done|].
    destruct (main_no_key invoke inp s Hc Hk) as (s' & H1 & _ & _ & H2). by exists s'. }
  assert (Hready : errors_shown (page (page_ready inp s)) = errors_shown (page s)).
  { rewrite page_ready_eq. cbn [page].
    rewrite !errors_shown_app, errors_shown_history, !app_nil_r. done. }
  destruct (chat_input inp) as [text|] eqn:Hi.
  - destruct (decide (text = "")) as [->|Ht].
    + left. split; [done|]. rewrite main_ready by done. rewrite Hi. by eexists.
    + rewrite (main_submit invoke inp s text Hc Hk Hi Ht). cbv zeta.
      destruct (invoke _) as [response|e] eqn:Hr.
      * left. split; [done|]. eexists. split; [reflexivity|]. cbn [page].
        rewrite !errors_shown_app, Hready, !app_nil_r. done.
      * right. split; [done|].
        destruct (is_Exception e) eqn:He; eexists _, e, _; rewrite He;
          (split; [exact Hr|]); (split; [reflexivity|]); cbn [page show];
          rewrite !errors_shown_app, Hready; cbn; by rewrite ?app_nil_r.
  - left. split; [done|]. rewrite main_ready by done. rewrite Hi. by eexists.
Qed.

End PageMore.

(** X10.  The only error a run of the page ever shows is the text of an
    exception the model call raised, and at most one per run; in particular
    the page never shows that the chatbot could not be set up, since it stores
    the typed key before it builds the chatbot. *)
Theorem page_errors_come_from_model (invoke : Invoker) (inp : Streamlit.Widgets)
    (s : Streamlit.Script) :
  ∃ errs,
    errors_shown (Streamlit.page (Streamlit.main invoke None inp s).2)
      = errors_shown (Streamlit.page s) ++ errs ∧
    (errs = [] ∨ ∃ r e, invoke r = Raise e ∧ errs = ["Error: " +:+ str e]).
Proof.
  destruct (main_cases invoke inp s)
    as [(_ & s' & -> & H) | [(_ & s' & -> & H) | (_ & r & e & s' & Hr & -> & H)]].
  - exists []. rewrite app_nil_r. by split; [|left].
  - exists []. rewrite app_nil_r. by split; [|left].
  - eexists. split; [exact H|]. destruct (is_Exception e); [right; by exists r, e | by left].
Qed.

(** X11.  A failing model call never sends the program to the terminal front
    end: when Streamlit imports and sets up, and the model fails only with
    ordinary exceptions, the start-up block ends in the page, by a rerun if
    the Clear button was pressed and at the last line of [main] otherwise;
    standard input is not read. *)
Theorem model_errors_stay_on_page (host : Program.Host) (remote : CLI.Remote)
    (inp : Streamlit.Widgets) (stdin : list string) (s : Streamlit.Script) :
  Program.streamlit_importable host = true →
  Program.runtime_fault host = None →
  raises_only_Exception remote →
  ∃ s', Program.start host remote inp stdin s =
        Program.WidgetRan
          (if Streamlit.clear_button inp then Streamlit.Rerun else Streamlit.Done) s'.
Proof.
  intros Hi Hf Hr. unfold Program.start. rewrite Hi, Hf. cbn [negb].
  destruct (main_cases (remote (calls (Streamlit.world s))) inp s)
    as [(Hc & s' & -> & _) | [(Hc & s' & -> & _) | (Hc & r & e & s' & Hre & -> & _)]];
    rewrite Hc.
  - by exists s'.
  - by exists s'.
  - apply Hr in Hre. rewrite Hre. by exists s'.
Qed.

Lemma model_errors_stay_on_page_witness :
  ∃ s', Program.start
          {| Program.streamlit_importable := true; Program.runtime_fault := None |}
          (λ _, always (Raise BOOM)) (sample_widgets false (Some "hi")) ["quit"]
          sample_script
        = Program.WidgetRan Streamlit.Done s'.
Proof.
  apply (model_errors_stay_on_page
           {| Program.streamlit_importable := true; Program.runtime_fault := None |}
           (λ _, always (Raise BOOM)) (sample_widgets false (Some "hi")) ["quit"]
           sample_script).
  - reflexivity.
  - reflexivity.
  - intros seen r e H. injection H as <-. reflexivity.
Defined.

Lemma cli_init_no_key env :
  getenv env "ANTHROPIC_API_KEY" = None ∨ getenv env "ANTHROPIC_API_KEY" = Some "" →
  CLI.CLIChatbot_init env = Raise API_KEY_REQUIRED.
Proof.
  intros H. apply truthy_opt_false in H.
  unfold CLI.CLIChatbot_init, AnthropicChatbot_init, setup_llm. cbv zeta. by rewrite H.
Qed.

(** X12.  The fallback is only as good as the environment: when the page
    set-up raises an exception and the program turns to the terminal front
    end, a process without a (non-empty) [ANTHROPIC_API_KEY] ends in the
    [ValueError] of the constructor, raised inside the handler and caught by
    nothing, before anything is sent or read. *)
Theorem fallback_without_key_fails (e : exn) (remote : CLI.Remote)
    (inp : Streamlit.Widgets) (stdin : list string) (s : Streamlit.Script) :
  is_Exception e = true →
  getenv (environ (Streamlit.world s)) "ANTHROPIC_API_KEY" = None ∨
  getenv (environ (Streamlit.world s)) "ANTHROPIC_API_KEY" = Some "" →
  ∃ w, Program.start {| Program.streamlit_importable := true;
                        Program.runtime_fault := Some e |} remote inp stdin s
       = Program.TerminalFailed API_KEY_REQUIRED w ∧
       calls w = calls (Streamlit.world s) ∧
       stdout w = stdout (Streamlit.world s) ++
                  (if is_ImportError e
                   then ["Streamlit not available. Using CLI version."] else []).
Proof.
  intros He Hk. unfold Program.start. cbn. unfold Program.start_cli.
  destruct (is_ImportError e).
  - cbn [print environ]. rewrite (cli_init_no_key _ Hk). by eexists.
  - rewrite He, (cli_init_no_key _ Hk). eexists. by rewrite app_nil_r.
Qed.

Lemma fallback_without_key_fails_witness :
  ∃ w, Program.start {| Program.streamlit_importable := true;
                        Program.runtime_fault := Some BOOM |}
         (λ _, always (Ok "hello")) (sample_widgets false None) ["hi"] sample_script
       = Program.TerminalFailed API_KEY_REQUIRED w ∧ calls w = [].
Proof.
  destruct (fallback_without_key_fails BOOM (λ _, always (Ok "hello"))
              (sample_widgets false None) ["hi"] sample_script) as (w & H1 & H2 & _).
  - reflexivity.
  - left. reflexivity.
  - exists w. split; [exact H1 | exact H2].
Defined.

(** X13.  A run of the page with a key, no Clear and no chat text only
    redraws: after the headings it draws one chat element per stored turn, in
    the order of the transcript and with the turn's own role and content,
    keeps the transcript, and sends nothing. *)
Theorem page_redraws_transcript (invoke : Invoker) (inp : Streamlit.Widgets)
    (s : Streamlit.Script) :
  Streamlit.clear_button inp = false → Streamlit.api_key inp ≠ "" →
  Streamlit.chat_input inp = None ∨ Streamlit.chat_input inp = Some "" →
  Streamlit.main invoke None inp s =
  (Streamlit.Done,
   {| Streamlit.session_messages := Some (Streamlit.messages s);
      Streamlit.page :=
        Streamlit.page s ++
        [Streamlit.Title "🤖 LangChain Anthropic Chatbot";
         Streamlit.Markdown "A chatbot powered by LangChain and Anthropic's Claude API";
         Streamlit.Header "Configuration"] ++
        map (λ m, Streamlit.ChatMessage (role m) (content m)) (Streamlit.messages s);
      Streamlit.world :=
        setenv "ANTHROPIC_API_KEY" (Streamlit.api_key inp) (Streamlit.world s) |}).
Proof.
  intros Hc Hk Hi. rewrite main_ready by done.
  apply truthy_opt_false in Hi. rewrite Hi. by rewrite page_ready_eq.
Qed.

Lemma page_redraws_transcript_witness :
  ∃ s', Streamlit.main (always (Ok "hello")) None (sample_widgets false None)
          {| Streamlit.session_messages := Some [user_turn "hi"; assistant_turn "hello"];
             Streamlit.page := []; Streamlit.world := sample_world |}
        = (Streamlit.Done, s') ∧
        Streamlit.page s' =
          [Streamlit.Title "🤖 LangChain Anthropic Chatbot";
           Streamlit.Markdown "A chatbot powered by LangChain and Anthropic's Claude API";
           Streamlit.Header "Configuration";
           Streamlit.ChatMessage "user" "hi"; Streamlit.ChatMessage "assistant" "hello"].
Proof.
  eexists. split.
  - apply page_redraws_transcript; [reflexivity | discriminate | by left].
  - reflexivity.
Defined.

(** ** The extended chatbot *)

(** X14.  [get_response_with_sources] makes the one model call of
    [get_response], an omitted history counting as an empty one.  If the call
    raises, the exception passes through and no dict is built; otherwise the
    dict holds the reply, and its metadata names the model and temperature
    that the request carried, with a timestamp that is always the same fixed
    text. *)
Theorem sourced_response (invoke : Invoker) (cfg : ChatbotConfig) (env : Environ)
    (self : AnthropicChatbot) (t : string) (h : option (list Turn)) (w : World) :
  Advanced.AdvancedChatbot_init cfg env = Ok self →
  let r := request_of self (default [] h) t in
  (Advanced.get_response_with_sources invoke self t h w).2 = record_call r w ∧
  match (Advanced.get_response_with_sources invoke self t h w).1 with
  | Ok d =>
      invoke r = Ok (Advanced.response d) ∧
      Advanced.md_model (Advanced.metadata d) = model (req_llm r) ∧
      Advanced.md_temperature (Advanced.metadata d) = temperature (req_llm r) ∧
      Advanced.md_timestamp (Advanced.metadata d) = "2024-01-15T10:30:00Z"
  | Raise e => invoke r = Raise e
  end.
Proof.
  intros Hinit r.
  assert (Hb : AnthropicChatbot_init cfg env = Ok self).
  { unfold Advanced.AdvancedChatbot_init in Hinit.
    by destruct (AnthropicChatbot_init cfg env). }
  assert (Hg : get_response invoke self t h w = (invoke r, record_call r w)).
  { subst r. destruct h as [h|].
    - exact (get_response_eq invoke cfg env self t h w Hb).
    - exact (get_response_eq invoke cfg env self t [] w Hb). }
  unfold Advanced.get_response_with_sources. rewrite Hg.
  destruct (invoke r) as [response|e]; [|done].
  cbn. split; [done|]. split; [done|].
  unfold AnthropicChatbot_init, setup_llm in Hb. cbv zeta in Hb.
  destruct (negb _); [done|]. cbn in Hb. injection Hb as <-. done.
Qed.

Lemma sourced_response_witness :
  (Advanced.get_response_with_sources (always (Ok "hello")) sample_bot "hi" None
     sample_world).1
  = Ok {| Advanced.response := "hello";
          Advanced.metadata :=
            {| Advanced.md_model := "claude-3-sonnet-20240229";
               Advanced.md_temperature := cfg_temperature ChatbotConfig_init;
               Advanced.md_timestamp := "2024-01-15T10:30:00Z" |} |} ∧
  (Advanced.get_response_with_sources (always (Ok "hello")) sample_bot "hi" None
     sample_world).2
  = record_call (request_of sample_bot [] "hi") sample_world.
Proof.
  destruct (sourced_response (always (Ok "hello")) ChatbotConfig_init sample_env
              sample_bot "hi" None sample_world) as [H1 H2]; [vm_compute; reflexivity|].
  split; [reflexivity | exact H1].
Defined.
